(** * ADS1115 demo driver: the protocol core of [ADS1115_demo.py]

    The Python module talks to a 4 channel, 16 bit I2C converter through
    [smbus].  Its two functions and the loop body of its program entry
    are embedded here:

    - [swap], the byte swap applied to every word that crosses the bus;
    - [readAdc], which builds the configuration word, writes it, polls
      the configuration register until the operational-status bit reads
      back as set, and then reads the conversion register;
    - [sample_line], one turn of the [while True] loop of the program
      entry up to its [print]: four calls of [readAdc] and the line
      built from their results.  The banner, the [time.sleep] calls and
      the handling of [KeyboardInterrupt] are left out.

    Python integers are unbounded, so words are values of [Z] and the
    masks of the source are written with [Z.land].  The global [bus]
    object is an [SMBus] structure over an abstract device state; its two
    methods either return or raise, and every call is appended to a log
    so that the bus traffic of a run can be stated.  The [while True]
    loop is unfolded at most [fuel] times. *)

From Stdlib Require Import ZArith List Bool Lia.
From Stdlib Require Import String Ascii DecimalString DecimalN.
Import ListNotations.
Local Open Scope Z_scope.

(** ** Module level constants *)

(** Address for the device (ADDR tied to GND). *)
Definition addr : Z := 0x48.

(** Registers in the ADS1115. *)
Definition DEVICE_REG_CONVERSION : Z := 0x00.
Definition DEVICE_REG_CONFIG : Z := 0x01.
Definition DEVICE_REG_LO_THRESH : Z := 0x02.
Definition DEVICE_REG_HI_THRESH : Z := 0x03.

(** Operational status. *)
Definition CONFIG_OS : Z := 0x8000.
Definition CONFIG_OS_START : Z := 0x8000.
Definition CONFIG_OS_PERFORMING_CONVERSION : Z := 0x0000.
Definition CONFIG_OS_NOT_PERFORMING_OPERATION : Z := 0x8000.

(** Differential measurements. *)
Definition CONFIG_MUX_AIN0P_AIN1N : Z := 0x0000.
Definition CONFIG_MUX_AIN1P_AIN3N : Z := 0x1000.
Definition CONFIG_MUX_AIN2P_AIN3N : Z := 0x2000.
Definition CONFIG_MUX_AIN3P_AIN3N : Z := 0x3000.
(** Single ended measurements. *)
Definition CONFIG_MUX_AIN0P_GNDN : Z := 0x4000.
Definition CONFIG_MUX_AIN1P_GNDN : Z := 0x5000.
Definition CONFIG_MUX_AIN2P_GNDN : Z := 0x6000.
Definition CONFIG_MUX_AIN3P_GNDN : Z := 0x7000.

(** Programmable gain amplifier configuration.  The source binds
    [CONFIG_FSR_0V256] three times (0x0A00, 0x0C00, 0x0E00); the last
    binding is the one in force after the module is loaded. *)
Definition CONFIG_FSR_6V144 : Z := 0x0000.
Definition CONFIG_FSR_4V096 : Z := 0x0200.
Definition CONFIG_FSR_2V048 : Z := 0x0400.
Definition CONFIG_FSR_1V024 : Z := 0x0600.
Definition CONFIG_FSR_0V512 : Z := 0x0800.
Definition CONFIG_FSR_0V256 : Z := 0x0E00.

(** Continuous or single shot mode. *)
Definition CONFIG_MODE_CONTINUOUS : Z := 0x0000.
Definition CONFIG_MODE_SINGLE_SHOT : Z := 0x0100.

(** Data rate. *)
Definition CONFIG_DATA_RATE_8SPS : Z := 0x0000.
Definition CONFIG_DATA_RATE_16SPS : Z := 0x0020.
Definition CONFIG_DATA_RATE_32SPS : Z := 0x0040.
Definition CONFIG_DATA_RATE_64SPS : Z := 0x0060.
Definition CONFIG_DATA_RATE_128SPS : Z := 0x0080.
Definition CONFIG_DATA_RATE_2508SPS : Z := 0x00A0.
Definition CONFIG_DATA_RATE_475SPS : Z := 0x00C0.
Definition CONFIG_DATA_RATE_860SPS : Z := 0x00E0.

(** Comparator mode, polarity, latching, queue. *)
Definition CONFIG_COMP_MODE_TRADITIONAL : Z := 0x0000.
Definition CONFIG_COMP_MODE_WINDOW : Z := 0x0010.
Definition CONFIG_COMP_POL_ACTIVE_LOW : Z := 0x0000.
Definition CONFIG_COMP_POL_ACTIVE_HIGH : Z := 0x0008.
Definition CONFIG_COMP_LAT : Z := 0x0004.
Definition CONFIG_COMP_LAT_NON_LATCHING : Z := 0x0000.
Definition CONFIG_COMP_LAT_LATCHING : Z := 0x0004.
Definition CONFIG_COMP_QUE : Z := 0x0003.
Definition CONFIG_COMP_QUE_1_CONV : Z := 0x0000.
Definition CONFIG_COMP_QUE_2_CONV : Z := 0x0001.
Definition CONFIG_COMP_QUE_4_CONV : Z := 0x0002.
Definition CONFIG_COMP_QUE_DISABLE : Z := 0x0003.

(** ** Pure functions *)

(** [def swap(a): return ((a&0xff00)>>8)|((a&0x00ff)<<8)] *)
Definition swap (a : Z) : Z :=
  Z.lor (Z.shiftr (Z.land a 0xff00) 8) (Z.shiftl (Z.land a 0x00ff) 8).

(** The value bound to [config] in [readAdc], as a function of the
    channel: the sum of ten terms, in the order of the source. *)
Definition config (channel : Z) : Z :=
  CONFIG_OS_START +
  CONFIG_MUX_AIN0P_GNDN +
  Z.shiftl channel 12 +
  CONFIG_FSR_4V096 +
  CONFIG_MODE_SINGLE_SHOT +
  CONFIG_DATA_RATE_128SPS +
  CONFIG_COMP_MODE_TRADITIONAL +
  CONFIG_COMP_POL_ACTIVE_LOW +
  CONFIG_COMP_LAT_NON_LATCHING +
  CONFIG_COMP_QUE_DISABLE.

(** The ten addends of [config], listed on their own so that their sum
    can be compared with their bitwise union. *)
Definition config_terms (channel : Z) : list Z :=
  [ CONFIG_OS_START;
    CONFIG_MUX_AIN0P_GNDN;
    Z.shiftl channel 12;
    CONFIG_FSR_4V096;
    CONFIG_MODE_SINGLE_SHOT;
    CONFIG_DATA_RATE_128SPS;
    CONFIG_COMP_MODE_TRADITIONAL;
    CONFIG_COMP_POL_ACTIVE_LOW;
    CONFIG_COMP_LAT_NON_LATCHING;
    CONFIG_COMP_QUE_DISABLE ].

(** ** The bus

    [bus = smbus.SMBus(1)] is a module level object.  [readAdc] uses two
    of its methods, each of which either returns or raises (an [IOError]
    when the transfer is not acknowledged).  The device behind the bus is
    a state of type [Dev]; a method takes the state before the call and
    gives the state after it together with its reply. *)

Class SMBus (Dev Err : Type) : Type := {
  write_word_data : Dev -> Z -> Z -> Z -> Dev * option Err;
  read_word_data : Dev -> Z -> Z -> Dev * (Z + Err)
}.

(** One entry of the log of bus traffic, with the arguments of the call. *)
Inductive BusCall : Type :=
| WriteWord (address register word : Z)
| ReadWord (address register : Z).

(** How a Python call ends: with a value, or with an exception on its
    way to the caller. *)
Inductive outcome (Err A : Type) : Type :=
| Returned (a : A)
| Raised (e : Err).

Arguments Returned {Err A} a.
Arguments Raised {Err A} e.

Section Driver.

Context {Dev Err : Type} {bus : SMBus Dev Err}.

(** What a run can change: the device, and the log of calls made so
    far, oldest first. *)
Definition World : Type := (Dev * list BusCall)%type.

(** A computation is run from a world.  [None] says that the fuel ran
    out while the poll loop was still going round. *)
Definition Py (A : Type) : Type := World -> option (outcome Err A * World).

Definition ret {A : Type} (a : A) : Py A :=
  fun w => Some (Returned a, w).

Definition bind {A B : Type} (m : Py A) (k : A -> Py B) : Py B :=
  fun w =>
    match m w with
    | None => None
    | Some (Returned a, w') => k a w'
    | Some (Raised e, w') => Some (Raised e, w')
    end.

Notation "x <- m ;; k" := (bind m (fun x => k))
  (at level 61, m at next level, right associativity).
Notation "m ;; k" := (bind m (fun _ => k))
  (at level 61, right associativity).

(** [bus.write_word_data(address, register, word)] *)
Definition bus_write_word_data (address register word : Z) : Py unit :=
  fun w =>
    let (dev', reply) := write_word_data (fst w) address register word in
    let w' := (dev', snd w ++ [WriteWord address register word]) in
    match reply with
    | None => Some (Returned tt, w')
    | Some e => Some (Raised e, w')
    end.

(** [bus.read_word_data(address, register)] *)
Definition bus_read_word_data (address register : Z) : Py Z :=
  fun w =>
    let (dev', reply) := read_word_data (fst w) address register in
    let w' := (dev', snd w ++ [ReadWord address register]) in
    match reply with
    | inl word => Some (Returned word, w')
    | inr e => Some (Raised e, w')
    end.

(** The [while (True)] loop of [readAdc]: read the status, leave the
    loop when [(status & CONFIG_OS) != CONFIG_OS_PERFORMING_CONVERSION],
    go round again otherwise. *)
Fixpoint wait_conversion (fuel : nat) : Py unit :=
  match fuel with
  | O => fun _ => None
  | S fuel' =>
      word <- bus_read_word_data addr DEVICE_REG_CONFIG ;;
      let status := swap word in
      if negb (Z.land status CONFIG_OS =? CONFIG_OS_PERFORMING_CONVERSION)
      then ret tt
      else wait_conversion fuel'
  end.

(** [def readAdc(channel)] *)
Definition readAdc (fuel : nat) (channel : Z) : Py Z :=
  if (channel >? 3) || (channel <? 0) then ret (-1)
  else
    bus_write_word_data addr DEVICE_REG_CONFIG (swap (config channel)) ;;
    wait_conversion fuel ;;
    word <- bus_read_word_data addr DEVICE_REG_CONVERSION ;;
    let result := swap word in
    ret result.

(** What [readAdc] makes of the reply to its last read, that of the
    conversion register: the swapped word, or the exception. *)
Definition result_of (reply : Z + Err) : outcome Err Z :=
  match reply with
  | inl word => Returned (swap word)
  | inr e => Raised e
  end.

(** The call comes back (with a value or an exception) when some
    amount of fuel is enough for it. *)
Definition comes_back {A : Type} (m : nat -> Py A) (w : World) : Prop :=
  exists fuel r, m fuel w = Some r.

(** The loop is still going round after any number of iterations. *)
Definition never_exits {A : Type} (m : nat -> Py A) (w : World) : Prop :=
  forall fuel, m fuel w = None.

(** The device as the [n]-th status read of a poll finds it, when the
    poll starts from [dev], and what that read replies. *)
Fixpoint status_dev (dev : Dev) (n : nat) : Dev :=
  match n with
  | O => dev
  | S n' => status_dev (fst (read_word_data dev addr DEVICE_REG_CONFIG)) n'
  end.

Definition status_reply (dev : Dev) (n : nat) : Z + Err :=
  snd (read_word_data (status_dev dev n) addr DEVICE_REG_CONFIG).

(** The status reads of a poll that went round [n] times. *)
Definition status_reads (n : nat) : list BusCall :=
  repeat (ReadWord addr DEVICE_REG_CONFIG) n.

End Driver.

(** A 16 bit word read as a two's complement signed integer.  The
    source has no such function: this is the reading that the
    specification gives of the result, stated here to compare
    [readAdc] with it. *)
Definition spec_int16 (word : Z) : Z :=
  if Z.testbit word 15 then word - 0x10000 else word.

(** ** Two concrete buses *)

(** A device that acknowledges every transfer; it answers the [n]-th
    read of the configuration register with [status n] and every other
    read with [conversion].  Its state counts the status reads. *)
Definition script_bus (status : nat -> Z) (conversion : Z) : SMBus nat Z := {|
  write_word_data dev _ _ _ := (dev, None);
  read_word_data dev _ register :=
    if register =? DEVICE_REG_CONFIG
    then (S dev, inl (status dev))
    else (dev, inl conversion)
|}.

(** No device at the address: every transfer raises, with errno 121
    (remote I/O error). *)
Definition absent_bus : SMBus unit Z := {|
  write_word_data dev _ _ _ := (dev, Some 121);
  read_word_data dev _ _ := (dev, inr 121)
|}.

(** A status sequence that is busy [n] times and idle from then on: the
    configuration register of channel 2 as it reads back during and after
    a conversion (0x6383, 0xE383), in wire order. *)
Definition busy_for (n : nat) (k : nat) : Z :=
  if (k <? n)%nat then 0x8363 else 0x83E3.

(** ** The fields of the configuration word

    The values that the source names for the three fields wider than one
    bit whose mask it does not name; the mask of a field is the union of
    its values. *)

Definition MUX_VALUES : list Z :=
  [ CONFIG_MUX_AIN0P_AIN1N; CONFIG_MUX_AIN1P_AIN3N;
    CONFIG_MUX_AIN2P_AIN3N; CONFIG_MUX_AIN3P_AIN3N;
    CONFIG_MUX_AIN0P_GNDN; CONFIG_MUX_AIN1P_GNDN;
    CONFIG_MUX_AIN2P_GNDN; CONFIG_MUX_AIN3P_GNDN ].

Definition FSR_VALUES : list Z :=
  [ CONFIG_FSR_6V144; CONFIG_FSR_4V096; CONFIG_FSR_2V048;
    CONFIG_FSR_1V024; CONFIG_FSR_0V512; CONFIG_FSR_0V256 ].

Definition DATA_RATE_VALUES : list Z :=
  [ CONFIG_DATA_RATE_8SPS; CONFIG_DATA_RATE_16SPS;
    CONFIG_DATA_RATE_32SPS; CONFIG_DATA_RATE_64SPS;
    CONFIG_DATA_RATE_128SPS; CONFIG_DATA_RATE_2508SPS;
    CONFIG_DATA_RATE_475SPS; CONFIG_DATA_RATE_860SPS ].

Definition field_mask (values : list Z) : Z :=
  fold_left Z.lor values 0.

(** The single ended mux constants, by channel. *)
Definition SINGLE_ENDED : list Z :=
  [ CONFIG_MUX_AIN0P_GNDN; CONFIG_MUX_AIN1P_GNDN;
    CONFIG_MUX_AIN2P_GNDN; CONFIG_MUX_AIN3P_GNDN ].

(** The words written on the bus, read off a log. *)
Definition written (log : list BusCall) : list Z :=
  flat_map (fun call => match call with
                        | WriteWord _ _ word => [word]
                        | ReadWord _ _ => []
                        end) log.

(** ** The program entry

    The body of the [while True] loop of the program entry, up to the
    [print]: the line [s] is built from one [readAdc] per channel of
    [range(0,4)].  An exception of the bus is not caught there (only
    [KeyboardInterrupt] is), so it ends the loop. *)

(** [str(i)] on an integer. *)
Definition str (i : Z) : string :=
  NilZero.string_of_int (Z.to_int i).

Fixpoint zeros (n : nat) : string :=
  match n with
  | O => EmptyString
  | S n' => String "0" (zeros n')
  end.

(** ["%05d" % val]: the sign if any, then the decimal digits, with
    zeros between the two to fill five columns. *)
Definition fmt_05d (val : Z) : string :=
  let sign := if val <? 0 then "-"%string else EmptyString in
  let digits := NilZero.string_of_uint (N.to_uint (Z.abs_N val)) in
  (sign
   ++ zeros (5 - String.length sign - String.length digits)
   ++ digits)%string.

(** [str(i)+": %05d"%val+"  "] *)
Definition field (i val : Z) : string :=
  (str i ++ ": " ++ fmt_05d val ++ "  ")%string.

Definition line_start : string := "(Ctrl-C to exit) ADC Result: ".

Section Demo.

Context {Dev Err : Type} {bus : SMBus Dev Err}.

(** [for i in range(0,4): val = readAdc(i); s += ...], over the
    channels still to come. *)
Fixpoint sample_channels (fuel : nat) (channels : list Z) (s : string)
  : Py string :=
  match channels with
  | [] => ret s
  | i :: rest =>
      bind (readAdc fuel i)
           (fun val => sample_channels fuel rest (s ++ field i val)%string)
  end.

(** The line that one turn of the loop prints. *)
Definition sample_line (fuel : nat) : Py string :=
  sample_channels fuel [0; 1; 2; 3] line_start.

End Demo.

(** A device that acknowledges every write and answers its first [n]
    reads, of whichever register, with [reply]; then it stops
    acknowledging: every later read raises, with errno 121. *)
Definition dropping_bus (reply : Z) (n : nat) : SMBus nat Z := {|
  write_word_data dev _ _ _ := (dev, None);
  read_word_data dev _ _ :=
    if (dev <? n)%nat then (S dev, inl reply) else (S dev, inr 121)
|}.

(** The test [p] on the [n] integers from [v] on. *)
Fixpoint all_from (v : Z) (n : nat) (p : Z -> bool) : bool :=
  match n with
  | O => true
  | S n' => p v && all_from (v + 1) n' p
  end.

(** ** Theorems about the pure part *)

Example swap_0x1234 : swap 0x1234 = 0x3412.
Proof. reflexivity. Qed.

(** Outside the 16 bit range the upper bits are dropped, so the swap is
    not undone there. *)
Example swap_drops_upper_bits : swap (swap 0x12345) = 0x2345.
Proof. reflexivity. Qed.

Example config_all_channels :
  map config [0; 1; 2; 3] = [0xC383; 0xD383; 0xE383; 0xF383].
Proof. reflexivity. Qed.

Lemma channel_cases (channel : Z) :
  0 <= channel <= 3 -> channel = 0 \/ channel = 1 \/ channel = 2 \/ channel = 3.
Proof. lia. Qed.

Ltac each_channel H :=
  destruct (channel_cases _ H) as [-> | [-> | [-> | ->]]].

Lemma testbit_0xff00 (n : Z) :
  Z.testbit 0xff00 n = (8 <=? n) && (n <? 16).
Proof.
  change 0xff00 with (Z.shiftl (Z.ones 8) 8).
  destruct (Z.leb_spec 8 n) as [Hge | Hlt]; simpl andb.
  - rewrite Z.shiftl_spec by lia.
    destruct (Z.ltb_spec n 16).
    + apply Z.ones_spec_low; lia.
    + apply Z.ones_spec_high; lia.
  - destruct (Z_lt_le_dec n 0) as [Hneg | Hpos].
    + apply Z.testbit_neg_r; assumption.
    + apply Z.shiftl_spec_low; assumption.
Qed.

Lemma testbit_0x00ff (n : Z) :
  Z.testbit 0x00ff n = (0 <=? n) && (n <? 8).
Proof.
  change 0x00ff with (Z.ones 8).
  destruct (Z.leb_spec 0 n) as [Hge | Hlt]; simpl andb.
  - destruct (Z.ltb_spec n 8).
    + apply Z.ones_spec_low; lia.
    + apply Z.ones_spec_high; lia.
  - apply Z.testbit_neg_r; assumption.
Qed.

(** Bit [n] of [swap a] is bit [n + 8] of [a] in the low byte, bit
    [n - 8] of [a] in the high byte, and clear elsewhere. *)
Lemma swap_testbit (a n : Z) :
  Z.testbit (swap a) n =
    if n <? 0 then false
    else if n <? 8 then Z.testbit a (n + 8)
    else if n <? 16 then Z.testbit a (n - 8)
    else false.
Proof.
  unfold swap.
  destruct (Z.ltb_spec n 0) as [Hneg | Hnn].
  { apply Z.testbit_neg_r; assumption. }
  rewrite Z.lor_spec, Z.shiftr_spec, Z.shiftl_spec by assumption.
  rewrite !Z.land_spec, testbit_0xff00, testbit_0x00ff.
  destruct (Z.ltb_spec n 8) as [H8 | H8].
  - replace (8 <=? n + 8) with true by (symmetry; apply Z.leb_le; lia).
    replace (n + 8 <? 16) with true by (symmetry; apply Z.ltb_lt; lia).
    rewrite (Z.testbit_neg_r a (n - 8)) by lia.
    simpl. rewrite Bool.andb_true_r, Bool.orb_false_r. reflexivity.
  - replace (0 <=? n - 8) with true by (symmetry; apply Z.leb_le; lia).
    replace (n + 8 <? 16) with false by (symmetry; apply Z.ltb_ge; lia).
    rewrite !Bool.andb_false_r, Bool.andb_true_l, Bool.orb_false_l.
    destruct (Z.ltb_spec n 16) as [H16 | H16].
    + replace (n - 8 <? 8) with true by (symmetry; apply Z.ltb_lt; lia).
      apply Bool.andb_true_r.
    + replace (n - 8 <? 8) with false by (symmetry; apply Z.ltb_ge; lia).
      apply Bool.andb_false_r.
Qed.

(** [swap] lands in the 16 bit range whatever integer it is given. *)
Lemma swap_range (a : Z) : 0 <= swap a <= 0xFFFF.
Proof.
  assert (Hnn : 0 <= swap a).
  { unfold swap. apply Z.lor_nonneg. split.
    - apply Z.shiftr_nonneg, Z.land_nonneg. right. lia.
    - apply Z.shiftl_nonneg, Z.land_nonneg. right. lia. }
  split; [assumption |].
  assert (Hlt : swap a < 2 ^ 16); [| lia].
  destruct (Z.eq_dec (swap a) 0) as [-> | Hz]; [lia |].
  apply Z.log2_lt_pow2; [lia |].
  destruct (Z_lt_le_dec (Z.log2 (swap a)) 16) as [Hlo | Hhi]; [assumption |].
  assert (Hbit : Z.testbit (swap a) (Z.log2 (swap a)) = true)
    by (apply Z.bit_log2; lia).
  rewrite swap_testbit in Hbit.
  destruct (Z.ltb_spec (Z.log2 (swap a)) 0); [discriminate |].
  destruct (Z.ltb_spec (Z.log2 (swap a)) 8); [lia |].
  destruct (Z.ltb_spec (Z.log2 (swap a)) 16); [lia | discriminate].
Qed.

Lemma testbit_above_16 (x n : Z) :
  0 <= x <= 0xFFFF -> 16 <= n -> Z.testbit x n = false.
Proof.
  intros Hx Hn.
  destruct (Z.eq_dec x 0) as [-> | Hz]; [apply Z.bits_0 |].
  apply Z.bits_above_log2; [lia |].
  apply Z.lt_le_trans with 16; [| assumption].
  apply Z.log2_lt_pow2; lia.
Qed.

(** C3: for every 16 bit value [x], [swap (swap x) = x], and [swap x] is
    again a 16 bit value. *)
Theorem swap_involutive (x : Z) :
  0 <= x <= 0xFFFF -> swap (swap x) = x /\ 0 <= swap x <= 0xFFFF.
Proof.
  intros Hx. split; [| apply swap_range].
  apply Z.bits_inj'. intros n Hn.
  rewrite !swap_testbit.
  destruct (Z.ltb_spec n 0); [lia |].
  destruct (Z.ltb_spec n 8).
  - destruct (Z.ltb_spec (n + 8) 0); [lia |].
    destruct (Z.ltb_spec (n + 8) 8); [lia |].
    destruct (Z.ltb_spec (n + 8) 16); [| lia].
    f_equal. lia.
  - destruct (Z.ltb_spec n 16).
    + destruct (Z.ltb_spec (n - 8) 0); [lia |].
      destruct (Z.ltb_spec (n - 8) 8); [| lia].
      f_equal. lia.
    + symmetry. apply testbit_above_16; assumption.
Qed.

Lemma swap_involutive_witness :
  swap (swap 0x1234) = 0x1234 /\ 0 <= swap 0x1234 <= 0xFFFF.
Proof. apply (swap_involutive 0x1234). lia. Defined.

(** The operational status test of the poll loop looks at bit 15 and at
    nothing else. *)
Lemma os_test_bit15 (status : Z) :
  negb (Z.land status CONFIG_OS =? CONFIG_OS_PERFORMING_CONVERSION)
  = Z.testbit status 15.
Proof.
  unfold CONFIG_OS, CONFIG_OS_PERFORMING_CONVERSION.
  assert (Hland : Z.land status 0x8000
                  = if Z.testbit status 15 then 0x8000 else 0).
  { apply Z.bits_inj'. intros n Hn.
    rewrite Z.land_spec.
    change 0x8000 with (2 ^ 15).
    rewrite Z.pow2_bits_eqb by lia.
    destruct (Z.eqb_spec 15 n) as [<- | Hne].
    - destruct (Z.testbit status 15) eqn:Hb.
      + rewrite Z.pow2_bits_true by lia. reflexivity.
      + rewrite Z.bits_0. reflexivity.
    - rewrite Bool.andb_false_r.
      destruct (Z.testbit status 15).
      + rewrite Z.pow2_bits_false by lia. reflexivity.
      + rewrite Z.bits_0. reflexivity. }
  rewrite Hland. destruct (Z.testbit status 15); reflexivity.
Qed.

(** [config] is the running sum of [config_terms], left to right. *)
Lemma config_sum_of_terms (channel : Z) :
  config channel = fold_left Z.add (config_terms channel) 0.
Proof. unfold config, config_terms. simpl. reflexivity. Qed.

(** C2: for every channel in 0..3, bits 12-14 of the configuration word
    hold the single ended mux code [4 + channel], and bit 15 is set. *)
Theorem config_mux_and_start (channel : Z) :
  0 <= channel <= 3 ->
  Z.land (Z.shiftr (config channel) 12) 7 = 4 + channel
  /\ Z.testbit (config channel) 15 = true.
Proof.
  intros H. each_channel H; split; reflexivity.
Qed.

Lemma config_mux_and_start_witness :
  Z.land (Z.shiftr (config 3) 12) 7 = 4 + 3
  /\ Z.testbit (config 3) 15 = true.
Proof. apply (config_mux_and_start 3). lia. Defined.

(** C4: for channel 2 the configuration word, before the byte swap, is
    0xE383, the bitwise or of 0x8000, 0x6000, 0x0200, 0x0100, 0x0080 and
    0x0003. *)
Theorem config_channel_2 :
  config 2 = 0xE383
  /\ 0xE383 = Z.lor 0x8000 (Z.lor 0x6000 (Z.lor 0x0200
                (Z.lor 0x0100 (Z.lor 0x0080 0x0003)))).
Proof. split; reflexivity. Qed.

(** C9: for every channel in 0..3 the sum that [readAdc] computes
    carries nowhere: it equals the bitwise or of the same ten terms, and
    no two of the terms have a set bit in common. *)
Theorem config_sum_is_union (channel : Z) :
  0 <= channel <= 3 ->
  config channel = fold_left Z.lor (config_terms channel) 0
  /\ fold_left Z.add (config_terms channel) 0
     = fold_left Z.lor (config_terms channel) 0
  /\ ForallOrdPairs (fun a b => Z.land a b = 0) (config_terms channel).
Proof.
  intros H. each_channel H;
    (split; [reflexivity | split; [reflexivity |]]);
    repeat (constructor; [repeat (constructor; [reflexivity |]); constructor |]);
    constructor.
Qed.

Lemma config_sum_is_union_witness :
  config 1 = fold_left Z.lor (config_terms 1) 0
  /\ fold_left Z.add (config_terms 1) 0 = fold_left Z.lor (config_terms 1) 0
  /\ ForallOrdPairs (fun a b => Z.land a b = 0) (config_terms 1).
Proof. apply (config_sum_is_union 1). lia. Defined.

(** ** Theorems about [readAdc] *)

Section DriverFacts.

Context {Dev Err : Type} {bus : SMBus Dev Err}.

Implicit Types (dev : Dev) (log : list BusCall) (channel word : Z).

(** *** One turn of the poll loop *)

Lemma wait_conversion_busy (fuel : nat) dev log dev' word :
  read_word_data dev addr DEVICE_REG_CONFIG = (dev', inl word) ->
  Z.testbit (swap word) 15 = false ->
  wait_conversion (S fuel) (dev, log)
  = wait_conversion fuel (dev', log ++ [ReadWord addr DEVICE_REG_CONFIG]).
Proof.
  intros Hread Hbit.
  cbn [wait_conversion]. unfold bind at 1, bus_read_word_data.
  cbn [fst snd]. rewrite Hread, os_test_bit15, Hbit. reflexivity.
Qed.

Lemma wait_conversion_idle (fuel : nat) dev log dev' word :
  read_word_data dev addr DEVICE_REG_CONFIG = (dev', inl word) ->
  Z.testbit (swap word) 15 = true ->
  wait_conversion (S fuel) (dev, log)
  = Some (Returned tt, (dev', log ++ [ReadWord addr DEVICE_REG_CONFIG])).
Proof.
  intros Hread Hbit.
  cbn [wait_conversion]. unfold bind at 1, bus_read_word_data.
  cbn [fst snd]. rewrite Hread, os_test_bit15, Hbit. reflexivity.
Qed.

Lemma wait_conversion_raised (fuel : nat) dev log dev' (e : Err) :
  read_word_data dev addr DEVICE_REG_CONFIG = (dev', inr e) ->
  wait_conversion (S fuel) (dev, log)
  = Some (Raised e, (dev', log ++ [ReadWord addr DEVICE_REG_CONFIG])).
Proof.
  intros Hread.
  cbn [wait_conversion]. unfold bind at 1, bus_read_word_data.
  cbn [fst snd]. rewrite Hread. reflexivity.
Qed.

(** *** The three phases of [readAdc] on a valid channel *)

Lemma valid_channel_test channel :
  0 <= channel <= 3 -> (channel >? 3) || (channel <? 0) = false.
Proof.
  intros H. apply Bool.orb_false_iff. split.
  - rewrite Z.gtb_ltb. apply Z.ltb_ge. lia.
  - apply Z.ltb_ge. lia.
Qed.

Lemma readAdc_phases (fuel : nat) channel dev log dev1 :
  0 <= channel <= 3 ->
  write_word_data dev addr DEVICE_REG_CONFIG (swap (config channel))
  = (dev1, None) ->
  readAdc fuel channel (dev, log)
  = match wait_conversion fuel
            (dev1, log ++ [WriteWord addr DEVICE_REG_CONFIG
                             (swap (config channel))]) with
    | None => None
    | Some (Returned _, (dev2, log2)) =>
        Some (result_of
                (snd (read_word_data dev2 addr DEVICE_REG_CONVERSION)),
              (fst (read_word_data dev2 addr DEVICE_REG_CONVERSION),
               log2 ++ [ReadWord addr DEVICE_REG_CONVERSION]))
    | Some (Raised e, w) => Some (Raised e, w)
    end.
Proof.
  intros Hch Hwrite.
  unfold readAdc. rewrite (valid_channel_test _ Hch).
  unfold bind at 1, bus_write_word_data. cbn [fst snd]. rewrite Hwrite.
  unfold bind at 1.
  destruct (wait_conversion fuel _) as [[[[] | e] [dev2 log2]] |];
    [| reflexivity | reflexivity].
  unfold bind, bus_read_word_data, ret. cbn [fst snd].
  destruct (read_word_data dev2 addr DEVICE_REG_CONVERSION) as [dev3 [w | e]];
    reflexivity.
Qed.

Lemma invalid_channel_test channel :
  channel < 0 \/ 3 < channel -> (channel >? 3) || (channel <? 0) = true.
Proof.
  intros [H | H]; apply Bool.orb_true_iff.
  - right. apply Z.ltb_lt. assumption.
  - left. rewrite Z.gtb_ltb. apply Z.ltb_lt. assumption.
Qed.

(** A run that returns a value ended with a read of the conversion
    register, and the value is that reply, byte swapped. *)
Lemma readAdc_returned_inv (fuel : nat) channel dev log (r : Z) dev' log' :
  0 <= channel <= 3 ->
  readAdc fuel channel (dev, log) = Some (Returned r, (dev', log')) ->
  exists dev2 log2 wire,
    read_word_data dev2 addr DEVICE_REG_CONVERSION = (dev', inl wire)
    /\ log' = log2 ++ [ReadWord addr DEVICE_REG_CONVERSION]
    /\ r = swap wire.
Proof.
  intros Hch Hrun.
  destruct (write_word_data dev addr DEVICE_REG_CONFIG
              (swap (config channel))) as [dev1 [e |]] eqn:Hwrite.
  - unfold readAdc in Hrun. rewrite (valid_channel_test _ Hch) in Hrun.
    unfold bind at 1, bus_write_word_data in Hrun.
    cbn [fst snd] in Hrun. rewrite Hwrite in Hrun. discriminate.
  - rewrite (readAdc_phases _ _ _ _ _ Hch Hwrite) in Hrun.
    destruct (wait_conversion fuel _) as [[[[] | e] [dev2 log2]] |];
      try discriminate.
    destruct (read_word_data dev2 addr DEVICE_REG_CONVERSION)
      as [dev3 [wire | e]] eqn:Hread;
      cbn [result_of fst snd] in Hrun; inversion Hrun; subst.
    exists dev2, log2, wire. auto.
Qed.

(** *** The poll loop against a sequence of replies *)

Lemma status_reply_0 dev word :
  status_reply dev 0 = inl word ->
  read_word_data dev addr DEVICE_REG_CONFIG
  = (status_dev dev 1, inl word).
Proof.
  unfold status_reply. cbn [status_dev]. intros H.
  rewrite <- H. apply surjective_pairing.
Qed.

(** While the replies say busy the loop goes on: fuel for [n] turns is
    not enough when the first [n] replies are busy. *)
Lemma wait_conversion_short (fuel : nat) :
  forall (n : nat) dev log (replies : nat -> Z),
    (forall k, (k < n)%nat -> status_reply dev k = inl (replies k)) ->
    (forall k, (k < n)%nat -> Z.testbit (swap (replies k)) 15 = false) ->
    (fuel <= n)%nat ->
    wait_conversion fuel (dev, log) = None.
Proof.
  induction fuel as [| fuel IH]; intros n dev log replies Hok Hbusy Hle.
  - reflexivity.
  - destruct n as [| n]; [lia |].
    rewrite (wait_conversion_busy fuel dev log (status_dev dev 1) (replies O)).
    + apply (IH n (status_dev dev 1) _ (fun k => replies (S k))).
      * intros k Hk. apply (Hok (S k)). lia.
      * intros k Hk. apply (Hbusy (S k)). lia.
      * lia.
    + apply status_reply_0, Hok. lia.
    + apply Hbusy. lia.
Qed.

(** The loop is left at the first reply that says idle, after exactly
    that many reads. *)
Lemma wait_conversion_exits (n : nat) :
  forall dev log (replies : nat -> Z) (fuel : nat),
    (forall k, (k <= n)%nat -> status_reply dev k = inl (replies k)) ->
    (forall k, (k < n)%nat -> Z.testbit (swap (replies k)) 15 = false) ->
    Z.testbit (swap (replies n)) 15 = true ->
    (n < fuel)%nat ->
    wait_conversion fuel (dev, log)
    = Some (Returned tt, (status_dev dev (S n), log ++ status_reads (S n))).
Proof.
  induction n as [| n IH]; intros dev log replies fuel Hok Hbusy Hidle Hlt;
    (destruct fuel as [| fuel]; [lia |]).
  - apply (wait_conversion_idle fuel dev log (status_dev dev 1) (replies O)).
    + apply status_reply_0, Hok. lia.
    + assumption.
  - rewrite (wait_conversion_busy fuel dev log (status_dev dev 1) (replies O)).
    + rewrite (IH (status_dev dev 1) _ (fun k => replies (S k))).
      * unfold status_reads. cbn [repeat status_dev].
        rewrite <- app_assoc. reflexivity.
      * intros k Hk. apply (Hok (S k)). lia.
      * intros k Hk. apply (Hbusy (S k)). lia.
      * assumption.
      * lia.
    + apply status_reply_0, Hok. lia.
    + apply Hbusy. lia.
Qed.

(** A loop that was left saw a reply that says idle. *)
Lemma wait_conversion_back (fuel : nat) :
  forall dev log (replies : nat -> Z) r,
    (forall k, status_reply dev k = inl (replies k)) ->
    wait_conversion fuel (dev, log) = Some r ->
    exists n, (n < fuel)%nat /\ Z.testbit (swap (replies n)) 15 = true.
Proof.
  induction fuel as [| fuel IH]; intros dev log replies r Hok Hrun.
  - discriminate.
  - destruct (Z.testbit (swap (replies O)) 15) eqn:Hbit.
    + exists O. split; [lia | assumption].
    + rewrite (wait_conversion_busy fuel dev log (status_dev dev 1) (replies O)) in Hrun;
        [| apply status_reply_0, Hok | assumption].
      destruct (IH _ _ (fun k => replies (S k)) r
                  (fun k => Hok (S k)) Hrun) as [n [Hn Hset]].
      exists (S n). split; [lia | assumption].
Qed.

(** Among the replies up to one that says idle there is a first. *)
Lemma first_idle (replies : nat -> Z) (n : nat) :
  Z.testbit (swap (replies n)) 15 = true ->
  exists m, (m <= n)%nat
            /\ Z.testbit (swap (replies m)) 15 = true
            /\ forall k, (k < m)%nat -> Z.testbit (swap (replies k)) 15 = false.
Proof.
  revert replies. induction n as [| n IH]; intros replies Hset.
  - exists O. split; [lia |]. split; [assumption |]. intros k Hk. lia.
  - destruct (Z.testbit (swap (replies O)) 15) eqn:Hbit.
    + exists O. split; [lia |]. split; [assumption |]. intros k Hk. lia.
    + destruct (IH (fun k => replies (S k)) Hset) as [m [Hle [Hm Hbefore]]].
      exists (S m). split; [lia |]. split; [assumption |].
      intros [| k] Hk; [assumption | apply Hbefore; lia].
Qed.

(** A run that is acknowledged throughout, meets [n] busy replies and
    then an idle one, and has [wire] for the conversion register,
    returns [swap wire] as soon as the fuel covers the [n + 1] turns. *)
Lemma readAdc_returns
    (fuel n : nat) channel dev log dev1 (replies : nat -> Z) dev' (wire : Z) :
  0 <= channel <= 3 ->
  write_word_data dev addr DEVICE_REG_CONFIG (swap (config channel))
  = (dev1, None) ->
  (forall k, (k <= n)%nat -> status_reply dev1 k = inl (replies k)) ->
  (forall k, (k < n)%nat -> Z.testbit (swap (replies k)) 15 = false) ->
  Z.testbit (swap (replies n)) 15 = true ->
  read_word_data (status_dev dev1 (S n)) addr DEVICE_REG_CONVERSION
  = (dev', inl wire) ->
  (n < fuel)%nat ->
  readAdc fuel channel (dev, log)
  = Some (Returned (swap wire),
          (dev', log ++ WriteWord addr DEVICE_REG_CONFIG
                          (swap (config channel))
                     :: status_reads (S n)
                     ++ [ReadWord addr DEVICE_REG_CONVERSION])).
Proof.
  intros Hch Hwrite Hok Hbusy Hidle Hread Hfuel.
  rewrite (readAdc_phases _ _ _ _ _ Hch Hwrite).
  rewrite (wait_conversion_exits n _ _ replies fuel Hok Hbusy Hidle Hfuel).
  rewrite Hread. cbn [result_of fst snd].
  rewrite <- !app_assoc. reflexivity.
Qed.

(** *** The claims about a run of [readAdc] *)

(** C1: when the first status read finds bit 15 clear (after the byte
    swap) and the second finds it set, [readAdc] on a valid channel
    makes exactly two reads of the configuration register and then
    exactly one read of the conversion register. *)
Theorem readAdc_two_status_reads
    (fuel : nat) channel dev0 log dev1 dev2 dev3 (word1 word2 : Z) :
  0 <= channel <= 3 ->
  write_word_data dev0 addr DEVICE_REG_CONFIG (swap (config channel))
  = (dev1, None) ->
  read_word_data dev1 addr DEVICE_REG_CONFIG = (dev2, inl word1) ->
  Z.testbit (swap word1) 15 = false ->
  read_word_data dev2 addr DEVICE_REG_CONFIG = (dev3, inl word2) ->
  Z.testbit (swap word2) 15 = true ->
  (2 <= fuel)%nat ->
  readAdc fuel channel (dev0, log)
  = Some (result_of (snd (read_word_data dev3 addr DEVICE_REG_CONVERSION)),
          (fst (read_word_data dev3 addr DEVICE_REG_CONVERSION),
           log ++ [ WriteWord addr DEVICE_REG_CONFIG (swap (config channel));
                    ReadWord addr DEVICE_REG_CONFIG;
                    ReadWord addr DEVICE_REG_CONFIG;
                    ReadWord addr DEVICE_REG_CONVERSION ])).
Proof.
  intros Hch Hwrite Hread1 Hbusy Hread2 Hidle Hfuel.
  destruct fuel as [| [| fuel]]; [lia | lia |].
  rewrite (readAdc_phases _ _ _ _ _ Hch Hwrite).
  rewrite (wait_conversion_busy _ _ _ _ _ Hread1 Hbusy).
  rewrite (wait_conversion_idle _ _ _ _ _ Hread2 Hidle).
  rewrite <- !app_assoc. reflexivity.
Qed.

(** C5, as the code has it: on a valid channel the value that
    [readAdc] returns is the reply to the read of the conversion
    register, byte swapped, as an unsigned 16 bit integer.  For the
    wire value 0x1234 it is 13330.  When bit 15 of the swapped word is
    clear it is the two's complement reading of that word; when bit 15
    is set it is that reading plus 65536, hence at least 32768 and not
    negative.  Such runs exist: a run acknowledged throughout, whose
    poll meets an idle reply, returns that value. *)
Theorem readAdc_result_unsigned channel dev log :
  0 <= channel <= 3 ->
  (forall (fuel : nat) (r : Z) dev' log',
     readAdc fuel channel (dev, log) = Some (Returned r, (dev', log')) ->
     exists dev2 log2 wire,
       read_word_data dev2 addr DEVICE_REG_CONVERSION = (dev', inl wire)
       /\ log' = log2 ++ [ReadWord addr DEVICE_REG_CONVERSION]
       /\ r = swap wire
       /\ (wire = 0x1234 -> r = 13330)
       /\ (Z.testbit (swap wire) 15 = false -> r = spec_int16 (swap wire))
       /\ (Z.testbit (swap wire) 15 = true ->
           r = spec_int16 (swap wire) + 0x10000 /\ 0x8000 <= r))
  /\ (forall (fuel n : nat) dev1 (replies : nat -> Z) dev' (wire : Z),
        write_word_data dev addr DEVICE_REG_CONFIG (swap (config channel))
        = (dev1, None) ->
        (forall k, (k <= n)%nat -> status_reply dev1 k = inl (replies k)) ->
        (forall k, (k < n)%nat -> Z.testbit (swap (replies k)) 15 = false) ->
        Z.testbit (swap (replies n)) 15 = true ->
        read_word_data (status_dev dev1 (S n)) addr DEVICE_REG_CONVERSION
        = (dev', inl wire) ->
        (n < fuel)%nat ->
        exists log',
          readAdc fuel channel (dev, log)
          = Some (Returned (swap wire), (dev', log'))).
Proof.
  intros Hch. split.
  - intros fuel r dev' log' Hrun.
    destruct (readAdc_returned_inv _ _ _ _ _ _ _ Hch Hrun)
      as [dev2 [log2 [wire [Hread [Hlog Hr]]]]].
    exists dev2, log2, wire.
    repeat (split; [assumption |]).
    split; [intros ->; subst r; reflexivity |].
    unfold spec_int16. subst r. split; intros Hbit; rewrite Hbit.
    + reflexivity.
    + split; [lia |].
      pose proof (swap_range wire) as Hrange.
      destruct (Z_lt_le_dec (swap wire) 0x8000) as [Hlo | Hhi];
        [| assumption].
      rewrite (Z.bits_above_log2 (swap wire) 15) in Hbit;
        [discriminate | lia |].
      destruct (Z.eq_dec (swap wire) 0) as [Hz | Hnz].
      * rewrite Hz. reflexivity.
      * apply Z.log2_lt_pow2; lia.
  - intros fuel n dev1 replies dev' wire Hwrite Hok Hbusy Hidle Hread Hfuel.
    eexists.
    apply (readAdc_returns fuel n channel dev log dev1 replies dev' wire);
      assumption.
Qed.

(** C6: for a channel outside 0..3, [readAdc] returns at once with
    the value -1, its answer to an invalid channel, and the bus is not
    touched: the device and the log of calls are as they were. *)
Theorem readAdc_invalid_channel (fuel : nat) channel (w : World) :
  channel < 0 \/ 3 < channel ->
  readAdc fuel channel w = Some (Returned (-1), w).
Proof.
  intros Hch. unfold readAdc.
  rewrite (invalid_channel_test _ Hch). reflexivity.
Qed.

(** C7: when the write of the configuration register raises, the
    exception leaves [readAdc] with its cause, and the write is the
    only call made on the bus: no status read, no conversion read. *)
Theorem readAdc_write_failure (fuel : nat) channel dev log dev1 (e : Err) :
  0 <= channel <= 3 ->
  write_word_data dev addr DEVICE_REG_CONFIG (swap (config channel))
  = (dev1, Some e) ->
  readAdc fuel channel (dev, log)
  = Some (Raised e,
          (dev1, log ++ [WriteWord addr DEVICE_REG_CONFIG
                           (swap (config channel))])).
Proof.
  intros Hch Hwrite.
  unfold readAdc. rewrite (valid_channel_test _ Hch).
  unfold bind at 1, bus_write_word_data.
  cbn [fst snd]. rewrite Hwrite. reflexivity.
Qed.

(** C8: on a valid channel, against an endless sequence of successful
    status replies, [readAdc] comes back if and only if some reply has
    bit 15 set after the byte swap.  If every reply has it clear the
    loop never exits.  Nothing bounds the number of turns: when the
    first idle reply is the one of index [n], the loop makes exactly
    [n + 1] status reads, and fuel for [n] turns or less runs out. *)
Theorem readAdc_poll_termination
    channel dev0 log dev1 (replies : nat -> Z) :
  0 <= channel <= 3 ->
  write_word_data dev0 addr DEVICE_REG_CONFIG (swap (config channel))
  = (dev1, None) ->
  (forall n, status_reply dev1 n = inl (replies n)) ->
  (comes_back (fun fuel => readAdc fuel channel) (dev0, log)
   <-> exists n, Z.testbit (swap (replies n)) 15 = true)
  /\ ((forall n, Z.testbit (swap (replies n)) 15 = false) ->
      never_exits (fun fuel => readAdc fuel channel) (dev0, log))
  /\ (forall n : nat,
        (forall k, (k < n)%nat -> Z.testbit (swap (replies k)) 15 = false) ->
        Z.testbit (swap (replies n)) 15 = true ->
        forall fuel : nat,
          ((fuel <= n)%nat -> readAdc fuel channel (dev0, log) = None)
          /\ ((n < fuel)%nat ->
              readAdc fuel channel (dev0, log)
              = Some (result_of
                        (snd (read_word_data (status_dev dev1 (S n))
                                addr DEVICE_REG_CONVERSION)),
                      (fst (read_word_data (status_dev dev1 (S n))
                              addr DEVICE_REG_CONVERSION),
                       log ++ WriteWord addr DEVICE_REG_CONFIG
                                (swap (config channel))
                           :: status_reads (S n)
                           ++ [ReadWord addr DEVICE_REG_CONVERSION])))).
Proof.
  intros Hch Hwrite Hok.
  assert (Hexact : forall n : nat,
    (forall k, (k < n)%nat -> Z.testbit (swap (replies k)) 15 = false) ->
    Z.testbit (swap (replies n)) 15 = true ->
    forall fuel : nat,
      ((fuel <= n)%nat -> readAdc fuel channel (dev0, log) = None)
      /\ ((n < fuel)%nat ->
          readAdc fuel channel (dev0, log)
          = Some (result_of
                    (snd (read_word_data (status_dev dev1 (S n))
                            addr DEVICE_REG_CONVERSION)),
                  (fst (read_word_data (status_dev dev1 (S n))
                          addr DEVICE_REG_CONVERSION),
                   log ++ WriteWord addr DEVICE_REG_CONFIG
                            (swap (config channel))
                       :: status_reads (S n)
                       ++ [ReadWord addr DEVICE_REG_CONVERSION])))).
  { intros n Hbusy Hidle fuel. split; intros Hfuel;
      rewrite (readAdc_phases _ _ _ _ _ Hch Hwrite).
    - rewrite (wait_conversion_short fuel n _ _ replies);
        [reflexivity | intros; apply Hok | assumption | assumption].
    - rewrite (wait_conversion_exits n _ _ replies fuel);
        [| intros; apply Hok | assumption | assumption | assumption].
      rewrite <- !app_assoc. reflexivity. }
  split; [split |]; [| | split; [| exact Hexact]].
  - intros [fuel [r Hrun]].
    rewrite (readAdc_phases _ _ _ _ _ Hch Hwrite) in Hrun.
    destruct (wait_conversion fuel _) as [r' |] eqn:Hwait;
      [| discriminate].
    destruct (wait_conversion_back _ _ _ replies _ Hok Hwait)
      as [n [_ Hset]].
    exists n. assumption.
  - intros [n Hset].
    destruct (first_idle replies n Hset) as [m [_ [Hm Hbefore]]].
    exists (S m). eexists.
    apply (Hexact m Hbefore Hm (S m)). lia.
  - intros Hall fuel.
    rewrite (readAdc_phases _ _ _ _ _ Hch Hwrite).
    rewrite (wait_conversion_short fuel fuel _ _ replies);
      [reflexivity | intros; apply Hok | intros; apply Hall | lia].
Qed.

(** C10: on a valid channel, a run that returns a value returns one
    between 0 and 65535; it is never negative, so never the -1 that
    an invalid channel is answered with.  Such runs exist: a run
    acknowledged throughout, whose poll meets an idle reply, returns a
    value. *)
Theorem readAdc_result_range channel dev log :
  0 <= channel <= 3 ->
  (forall (fuel : nat) (r : Z) (w' : World),
     readAdc fuel channel (dev, log) = Some (Returned r, w') ->
     0 <= r <= 65535
     /\ forall (fuel' : nat) channel' (w0 w1 : World) (r' : Z),
          channel' < 0 \/ 3 < channel' ->
          readAdc fuel' channel' w0 = Some (Returned r', w1) ->
          r' = -1 /\ r <> r')
  /\ (forall (fuel n : nat) dev1 (replies : nat -> Z) dev' (wire : Z),
        write_word_data dev addr DEVICE_REG_CONFIG (swap (config channel))
        = (dev1, None) ->
        (forall k, (k <= n)%nat -> status_reply dev1 k = inl (replies k)) ->
        (forall k, (k < n)%nat -> Z.testbit (swap (replies k)) 15 = false) ->
        Z.testbit (swap (replies n)) 15 = true ->
        read_word_data (status_dev dev1 (S n)) addr DEVICE_REG_CONVERSION
        = (dev', inl wire) ->
        (n < fuel)%nat ->
        exists (r : Z) (w' : World),
          readAdc fuel channel (dev, log) = Some (Returned r, w')
          /\ 0 <= r <= 65535).
Proof.
  intros Hch. split.
  - intros fuel r [dev' log'] Hrun.
    destruct (readAdc_returned_inv _ _ _ _ _ _ _ Hch Hrun)
      as [dev2 [log2 [wire [_ [_ Hr]]]]].
    pose proof (swap_range wire) as Hrange. rewrite <- Hr in Hrange.
    split; [exact Hrange |].
    intros fuel' channel' w0 w1 r' Hbad Hrun'.
    unfold readAdc in Hrun'. rewrite (invalid_channel_test _ Hbad) in Hrun'.
    inversion Hrun'; subst. split; [reflexivity | lia].
  - intros fuel n dev1 replies dev' wire Hwrite Hok Hbusy Hidle Hread Hfuel.
    exists (swap wire). eexists. split.
    + apply (readAdc_returns fuel n channel dev log dev1 replies dev' wire);
        assumption.
    + apply swap_range.
Qed.

End DriverFacts.

(** ** The claims on the concrete buses *)

Lemma script_status_dev (status : nat -> Z) (conversion : Z) (n d : nat) :
  status_dev (bus := script_bus status conversion) d n = (d + n)%nat.
Proof.
  revert d. induction n as [| n IH]; intros d; cbn [status_dev].
  - lia.
  - change (fst (read_word_data (SMBus := script_bus status conversion)
                   d addr DEVICE_REG_CONFIG)) with (S d).
    rewrite IH. lia.
Qed.

Lemma script_status_reply (status : nat -> Z) (conversion : Z) (n : nat) :
  status_reply (bus := script_bus status conversion) O n = inl (status n).
Proof.
  unfold status_reply. rewrite script_status_dev. reflexivity.
Qed.

(** Three busy replies: fuel for three turns runs out, a fourth turn
    leaves the loop, and the log shows four status reads. *)
Example readAdc_three_busy_replies :
  readAdc (bus := script_bus (busy_for 3) 0x1234) 3 2 (O, []) = None
  /\ readAdc (bus := script_bus (busy_for 3) 0x1234) 4 2 (O, [])
     = Some (Returned 0x3412,
             (4%nat, [ WriteWord 0x48 1 0x83E3;
                       ReadWord 0x48 1; ReadWord 0x48 1;
                       ReadWord 0x48 1; ReadWord 0x48 1;
                       ReadWord 0x48 0 ])).
Proof. split; reflexivity. Qed.

(** A read that raises inside the loop ends the call with the
    exception. *)
Example readAdc_absent_device_poll :
  wait_conversion (bus := absent_bus) 5 (tt, [])
  = Some (Raised 121, (tt, [ReadWord 0x48 1])).
Proof. reflexivity. Qed.

Lemma readAdc_two_status_reads_witness :
  readAdc (bus := script_bus (busy_for 1) 0x1234) 2 2 (O, [])
  = Some (Returned 13330,
          (2%nat, [ WriteWord 0x48 1 0x83E3; ReadWord 0x48 1;
                    ReadWord 0x48 1; ReadWord 0x48 0 ])).
Proof.
  apply (readAdc_two_status_reads (bus := script_bus (busy_for 1) 0x1234)
           2 2 O [] O 1%nat 2%nat 0x8363 0x83E3);
    try reflexivity; lia.
Defined.

(** C5, as the specification words it, fails: with the conversion
    register answering 0x0080 on the wire, the swapped word 0x8000 has
    bit 15 set and reads -32768 in two's complement, but [readAdc]
    returns 32768, which is not negative. *)
Lemma readAdc_signed_counterexample :
  readAdc (bus := script_bus (busy_for 0) 0x0080) 1 0 (O, [])
  = Some (Returned 32768,
          (1%nat, [ WriteWord 0x48 1 0x83C3; ReadWord 0x48 1;
                    ReadWord 0x48 0 ]))
  /\ Z.testbit (swap 0x0080) 15 = true
  /\ spec_int16 (swap 0x0080) = -32768
  /\ 32768 <> spec_int16 (swap 0x0080)
  /\ ~ 32768 < 0.
Proof.
  split; [reflexivity |]. split; [reflexivity |]. split; [reflexivity |].
  split; [discriminate | lia].
Qed.

Lemma readAdc_result_unsigned_witness :
  (exists (dev2 : nat) log2 wire,
     read_word_data (SMBus := script_bus (busy_for 0) 0x0080)
       dev2 addr DEVICE_REG_CONVERSION = (1%nat, inl wire)
     /\ [ WriteWord 0x48 1 0x83C3; ReadWord 0x48 1; ReadWord 0x48 0 ]
        = log2 ++ [ReadWord addr DEVICE_REG_CONVERSION]
     /\ 32768 = swap wire
     /\ (wire = 0x1234 -> 32768 = 13330)
     /\ (Z.testbit (swap wire) 15 = false -> 32768 = spec_int16 (swap wire))
     /\ (Z.testbit (swap wire) 15 = true ->
         32768 = spec_int16 (swap wire) + 0x10000 /\ 0x8000 <= 32768))
  /\ (exists log',
        readAdc (bus := script_bus (busy_for 0) 0x0080) 4 0 (O, [])
        = Some (Returned (swap 0x0080), (1%nat, log'))).
Proof.
  destruct (readAdc_result_unsigned
              (bus := script_bus (busy_for 0) 0x0080) 0 O [])
    as [Hvalue Hruns].
  - lia.
  - split.
    + apply (Hvalue 1%nat). reflexivity.
    + apply (Hruns 4%nat O O (busy_for 0)).
      * reflexivity.
      * intros k _. apply script_status_reply.
      * intros k Hk. lia.
      * reflexivity.
      * reflexivity.
      * lia.
Defined.

Lemma readAdc_invalid_channel_witness :
  readAdc (bus := absent_bus) 0 4 (tt, []) = Some (Returned (-1), (tt, [])).
Proof.
  apply (readAdc_invalid_channel (bus := absent_bus) 0 4 (tt, [])). lia.
Defined.

Lemma readAdc_write_failure_witness :
  readAdc (bus := absent_bus) 0 1 (tt, [])
  = Some (Raised 121, (tt, [WriteWord 0x48 1 0x83D3])).
Proof.
  apply (readAdc_write_failure (bus := absent_bus) 0 1 tt [] tt 121).
  - lia.
  - reflexivity.
Defined.

Lemma readAdc_poll_termination_witness :
  (comes_back
     (fun fuel => readAdc (bus := script_bus (busy_for 3) 0x1234) fuel 2)
     (O, [])
   <-> exists n, Z.testbit (swap (busy_for 3 n)) 15 = true)
  /\ ((forall n, Z.testbit (swap (busy_for 3 n)) 15 = false) ->
      never_exits
        (fun fuel => readAdc (bus := script_bus (busy_for 3) 0x1234) fuel 2)
        (O, []))
  /\ (forall n : nat,
        (forall k, (k < n)%nat -> Z.testbit (swap (busy_for 3 k)) 15 = false) ->
        Z.testbit (swap (busy_for 3 n)) 15 = true ->
        forall fuel : nat,
          ((fuel <= n)%nat ->
           readAdc (bus := script_bus (busy_for 3) 0x1234) fuel 2 (O, [])
           = None)
          /\ ((n < fuel)%nat ->
              readAdc (bus := script_bus (busy_for 3) 0x1234) fuel 2 (O, [])
              = Some (result_of
                        (snd (read_word_data
                                (SMBus := script_bus (busy_for 3) 0x1234)
                                (status_dev
                                   (bus := script_bus (busy_for 3) 0x1234)
                                   O (S n))
                                addr DEVICE_REG_CONVERSION)),
                      (fst (read_word_data
                              (SMBus := script_bus (busy_for 3) 0x1234)
                              (status_dev
                                 (bus := script_bus (busy_for 3) 0x1234)
                                 O (S n))
                              addr DEVICE_REG_CONVERSION),
                       [] ++ WriteWord addr DEVICE_REG_CONFIG (swap (config 2))
                          :: status_reads (S n)
                          ++ [ReadWord addr DEVICE_REG_CONVERSION])))).
Proof.
  apply (readAdc_poll_termination (bus := script_bus (busy_for 3) 0x1234)
           2 O [] O (busy_for 3)).
  - lia.
  - reflexivity.
  - intros n. apply script_status_reply.
Defined.

Lemma readAdc_result_range_witness :
  (0 <= 13330 <= 65535
   /\ forall (fuel' : nat) channel' (w0 w1 : World) (r' : Z),
        channel' < 0 \/ 3 < channel' ->
        readAdc (bus := script_bus (busy_for 1) 0x1234) fuel' channel' w0
        = Some (Returned r', w1) ->
        r' = -1 /\ 13330 <> r')
  /\ (exists (r : Z) (w' : World),
        readAdc (bus := script_bus (busy_for 1) 0x1234) 2 2 (O, [])
        = Some (Returned r, w')
        /\ 0 <= r <= 65535).
Proof.
  destruct (readAdc_result_range
              (bus := script_bus (busy_for 1) 0x1234) 2 O [])
    as [Hrange Hruns].
  - lia.
  - split.
    + apply (Hrange 2%nat 13330
               (2%nat, [ WriteWord 0x48 1 0x83E3; ReadWord 0x48 1;
                         ReadWord 0x48 1; ReadWord 0x48 0 ])).
      reflexivity.
    + apply (Hruns 2%nat 1%nat O (busy_for 1) 2%nat 0x1234).
      * reflexivity.
      * intros k _. apply script_status_reply.
      * intros [| k] Hk; [reflexivity | lia].
      * reflexivity.
      * reflexivity.
      * lia.
Defined.

(** ** Further facts about [swap] and [config] *)

Lemma testbit_mod_0x10000 (a n : Z) :
  Z.testbit (a mod 0x10000) n = if n <? 16 then Z.testbit a n else false.
Proof.
  change 0x10000 with (2 ^ 16).
  destruct (Z.ltb_spec n 16).
  - apply Z.mod_pow2_bits_low. assumption.
  - apply Z.mod_pow2_bits_high. lia.
Qed.

(** X1: [swap] reads the low 16 bits of its argument and nothing else,
    whatever the integer, and swapping twice gives those 16 bits back:
    [swap (swap a)] is [a] modulo 65536. *)
Theorem swap_swap_truncates (a : Z) :
  swap (swap a) = a mod 0x10000 /\ swap (a mod 0x10000) = swap a.
Proof.
  split; apply Z.bits_inj'; intros n Hn; rewrite !swap_testbit.
  - rewrite testbit_mod_0x10000.
    destruct (Z.ltb_spec n 0); [lia |].
    destruct (Z.ltb_spec n 8).
    + destruct (Z.ltb_spec (n + 8) 0); [lia |].
      destruct (Z.ltb_spec (n + 8) 8); [lia |].
      destruct (Z.ltb_spec (n + 8) 16); [| lia].
      destruct (Z.ltb_spec n 16); [| lia].
      f_equal. lia.
    + destruct (Z.ltb_spec n 16); [| reflexivity].
      destruct (Z.ltb_spec (n - 8) 0); [lia |].
      destruct (Z.ltb_spec (n - 8) 8); [| lia].
      f_equal. lia.
  - rewrite !testbit_mod_0x10000.
    destruct (Z.ltb_spec n 0); [lia |].
    destruct (Z.ltb_spec n 8).
    + destruct (Z.ltb_spec (n + 8) 16); [reflexivity | lia].
    + destruct (Z.ltb_spec n 16); [| reflexivity].
      destruct (Z.ltb_spec (n - 8) 16); [reflexivity | lia].
Qed.

(** X2: in arithmetic, [swap a] has the low byte of [a] as its high
    byte and the second byte of [a] as its low byte. *)
Theorem swap_bytes (a : Z) :
  swap a = 256 * (a mod 256) + (a / 256) mod 256.
Proof.
  assert (Hlow : Z.land a 0x00ff = a mod 256).
  { change 0x00ff with (Z.ones 8). rewrite Z.land_ones by lia. reflexivity. }
  assert (Hhigh : Z.shiftr (Z.land a 0xff00) 8 = (a / 256) mod 256).
  { rewrite Z.shiftr_land. change (Z.shiftr 0xff00 8) with (Z.ones 8).
    rewrite Z.land_ones by lia. rewrite Z.shiftr_div_pow2 by lia.
    reflexivity. }
  unfold swap. rewrite Hlow, Hhigh, Z.shiftl_mul_pow2 by lia.
  change (2 ^ 8) with 256.
  assert (Hgen : forall hi lo : Z, Z.land (hi mod 2 ^ 8) (lo * 2 ^ 8) = 0).
  { intros hi lo. apply Z.bits_inj'. intros n Hn.
    rewrite Z.land_spec, Z.bits_0.
    destruct (Z_lt_le_dec n 8) as [Hlt | Hge].
    - rewrite Z.mul_pow2_bits_low by lia. apply Bool.andb_false_r.
    - rewrite Z.mod_pow2_bits_high by lia. reflexivity. }
  pose proof (Hgen (a / 256) (a mod 256)) as Hdisjoint.
  change (2 ^ 8) with 256 in Hdisjoint.
  rewrite <- Z.lxor_lor by exact Hdisjoint.
  rewrite <- Z.add_nocarry_lxor by exact Hdisjoint.
  lia.
Qed.

(** X3: the exit test of the poll loop, applied to the swapped status,
    looks at bit 7 of the word as the bus delivers it. *)
Theorem poll_test_wire_bit (word : Z) :
  negb (Z.land (swap word) CONFIG_OS =? CONFIG_OS_PERFORMING_CONVERSION)
  = Z.testbit word 7
  /\ (Z.land (swap word) CONFIG_OS = CONFIG_OS_NOT_PERFORMING_OPERATION
      \/ Z.land (swap word) CONFIG_OS = CONFIG_OS_PERFORMING_CONVERSION).
Proof.
  assert (Hbit : negb (Z.land (swap word) CONFIG_OS
                       =? CONFIG_OS_PERFORMING_CONVERSION)
                 = Z.testbit word 7).
  { rewrite os_test_bit15, swap_testbit. reflexivity. }
  split; [exact Hbit |].
  unfold CONFIG_OS_PERFORMING_CONVERSION in *.
  destruct (Z.eqb_spec (Z.land (swap word) CONFIG_OS) 0) as [Hz | Hnz];
    [right; exact Hz | left].
  unfold CONFIG_OS, CONFIG_OS_NOT_PERFORMING_OPERATION in *.
  apply Z.bits_inj'. intros n Hn.
  rewrite Z.land_spec.
  change 0x8000 with (2 ^ 15). rewrite Z.pow2_bits_eqb by lia.
  destruct (Z.eqb_spec 15 n) as [<- | Hne].
  - rewrite Bool.andb_true_r.
    rewrite <- os_test_bit15. unfold CONFIG_OS, CONFIG_OS_PERFORMING_CONVERSION.
    destruct (Z.eqb_spec (Z.land (swap word) 0x8000) 0); [contradiction |].
    reflexivity.
  - apply Bool.andb_false_r.
Qed.

(** X4: on a valid channel every field reads back from the word as the
    constant that was put in: the mux field holds the single ended
    constant of the channel, and the other fields do not depend on the
    channel. *)
Theorem config_fields_read_back (channel : Z) :
  0 <= channel <= 3 ->
  Z.land (config channel) CONFIG_OS = CONFIG_OS_START
  /\ Z.land (config channel) (field_mask MUX_VALUES)
     = nth (Z.to_nat channel) SINGLE_ENDED 0
  /\ Z.land (config channel) (field_mask FSR_VALUES) = CONFIG_FSR_4V096
  /\ Z.land (config channel) CONFIG_MODE_SINGLE_SHOT = CONFIG_MODE_SINGLE_SHOT
  /\ Z.land (config channel) (field_mask DATA_RATE_VALUES)
     = CONFIG_DATA_RATE_128SPS
  /\ Z.land (config channel) CONFIG_COMP_MODE_WINDOW
     = CONFIG_COMP_MODE_TRADITIONAL
  /\ Z.land (config channel) CONFIG_COMP_POL_ACTIVE_HIGH
     = CONFIG_COMP_POL_ACTIVE_LOW
  /\ Z.land (config channel) CONFIG_COMP_LAT = CONFIG_COMP_LAT_NON_LATCHING
  /\ Z.land (config channel) CONFIG_COMP_QUE = CONFIG_COMP_QUE_DISABLE.
Proof.
  intros H. each_channel H; repeat split; reflexivity.
Qed.

Lemma config_fields_read_back_witness :
  Z.land (config 3) CONFIG_OS = CONFIG_OS_START
  /\ Z.land (config 3) (field_mask MUX_VALUES)
     = nth (Z.to_nat 3) SINGLE_ENDED 0
  /\ Z.land (config 3) (field_mask FSR_VALUES) = CONFIG_FSR_4V096
  /\ Z.land (config 3) CONFIG_MODE_SINGLE_SHOT = CONFIG_MODE_SINGLE_SHOT
  /\ Z.land (config 3) (field_mask DATA_RATE_VALUES)
     = CONFIG_DATA_RATE_128SPS
  /\ Z.land (config 3) CONFIG_COMP_MODE_WINDOW
     = CONFIG_COMP_MODE_TRADITIONAL
  /\ Z.land (config 3) CONFIG_COMP_POL_ACTIVE_HIGH
     = CONFIG_COMP_POL_ACTIVE_LOW
  /\ Z.land (config 3) CONFIG_COMP_LAT = CONFIG_COMP_LAT_NON_LATCHING
  /\ Z.land (config 3) CONFIG_COMP_QUE = CONFIG_COMP_QUE_DISABLE.
Proof. apply (config_fields_read_back 3). lia. Defined.

(** ** Further facts about the bus traffic of [readAdc] *)

Section DriverTraffic.

Context {Dev Err : Type} {bus : SMBus Dev Err}.

Implicit Types (dev : Dev) (log : list BusCall) (channel word : Z).

Lemma status_reads_snoc log (k : nat) :
  (log ++ [ReadWord addr DEVICE_REG_CONFIG]) ++ status_reads k
  = log ++ status_reads (S k).
Proof. rewrite <- app_assoc. reflexivity. Qed.

(** However the loop is left, it has made at least one status read, and
    status reads are all it has added to the log. *)
Lemma wait_conversion_log (fuel : nat) :
  forall dev log (out : outcome Err unit) dev' log',
    wait_conversion fuel (dev, log) = Some (out, (dev', log')) ->
    exists k : nat, (1 <= k <= fuel)%nat /\ log' = log ++ status_reads k.
Proof.
  induction fuel as [| fuel IH]; intros dev log out dev' log' Hrun.
  - discriminate.
  - cbn [wait_conversion] in Hrun.
    unfold bind at 1, bus_read_word_data in Hrun. cbn [fst snd] in Hrun.
    destruct (read_word_data dev addr DEVICE_REG_CONFIG) as [dev1 [word | e]].
    + destruct (negb (Z.land (swap word) CONFIG_OS
                      =? CONFIG_OS_PERFORMING_CONVERSION)).
      * inversion Hrun; subst. exists 1%nat. split; [lia | reflexivity].
      * destruct (IH _ _ _ _ _ Hrun) as [k [Hk Hlog]].
        exists (S k). split; [lia |].
        rewrite Hlog. apply status_reads_snoc.
    + inversion Hrun; subst. exists 1%nat. split; [lia | reflexivity].
Qed.

Lemma status_raise_0 dev (e : Err) :
  status_reply dev 0 = inr e ->
  read_word_data dev addr DEVICE_REG_CONFIG = (status_dev dev 1, inr e).
Proof.
  unfold status_reply. cbn [status_dev]. intros H.
  rewrite <- H. apply surjective_pairing.
Qed.

(** The loop ends with the exception of the first status read that
    raises, when the replies before it say busy. *)
Lemma wait_conversion_raises_at (n : nat) :
  forall dev log (replies : nat -> Z) (e : Err) (fuel : nat),
    (forall k, (k < n)%nat -> status_reply dev k = inl (replies k)) ->
    (forall k, (k < n)%nat -> Z.testbit (swap (replies k)) 15 = false) ->
    status_reply dev n = inr e ->
    (n < fuel)%nat ->
    wait_conversion fuel (dev, log)
    = Some (Raised e, (status_dev dev (S n), log ++ status_reads (S n))).
Proof.
  induction n as [| n IH]; intros dev log replies e fuel Hok Hbusy Hraise Hlt;
    (destruct fuel as [| fuel]; [lia |]).
  - apply wait_conversion_raised, status_raise_0, Hraise.
  - rewrite (wait_conversion_busy fuel dev log (status_dev dev 1) (replies O)).
    + rewrite (IH (status_dev dev 1) _ (fun k => replies (S k)) e).
      * rewrite status_reads_snoc. reflexivity.
      * intros k Hk. apply (Hok (S k)). lia.
      * intros k Hk. apply (Hbusy (S k)). lia.
      * exact Hraise.
      * lia.
    + apply status_reply_0, Hok. lia.
    + apply Hbusy. lia.
Qed.

(** The log of a call that came back, as an extension of the log it
    started from. *)
Lemma readAdc_log_cases (fuel : nat) channel dev log
    (out : outcome Err Z) dev' log' :
  0 <= channel <= 3 ->
  readAdc fuel channel (dev, log) = Some (out, (dev', log')) ->
  exists k : nat,
    (k <= fuel)%nat
    /\ ((log' = log ++ WriteWord addr DEVICE_REG_CONFIG (swap (config channel))
                    :: status_reads k
         /\ exists e, out = Raised e)
        \/ ((1 <= k)%nat
            /\ log' = log ++ WriteWord addr DEVICE_REG_CONFIG
                              (swap (config channel))
                         :: status_reads k
                         ++ [ReadWord addr DEVICE_REG_CONVERSION])).
Proof.
  intros Hch Hrun.
  destruct (write_word_data dev addr DEVICE_REG_CONFIG
              (swap (config channel))) as [dev1 [e |]] eqn:Hwrite.
  - unfold readAdc in Hrun. rewrite (valid_channel_test _ Hch) in Hrun.
    unfold bind at 1, bus_write_word_data in Hrun.
    cbn [fst snd] in Hrun. rewrite Hwrite in Hrun.
    inversion Hrun; subst.
    exists O. split; [lia |]. left. split; [reflexivity | exists e; reflexivity].
  - rewrite (readAdc_phases _ _ _ _ _ Hch Hwrite) in Hrun.
    destruct (wait_conversion fuel _) as [[[[] | e] [dev2 log2]] |] eqn:Hwait;
      [| | discriminate];
      destruct (wait_conversion_log _ _ _ _ _ _ Hwait) as [k [Hk Hlog]];
      inversion Hrun; subst; exists k; (split; [lia |]).
    + right. split; [lia |]. rewrite <- !app_assoc. reflexivity.
    + left. split; [rewrite <- app_assoc; reflexivity | exists e; reflexivity].
Qed.

(** X5: the traffic of a call on a valid channel, however it ends, is
    one write of the configuration word to the configuration register,
    then status reads, then at most one read of the conversion register,
    which is the last call and comes after at least one status read.
    All calls go to [addr]; nothing else is written, and the threshold
    registers are never touched.  A call that stops before the read of
    the conversion register has raised. *)
Theorem readAdc_traffic (fuel : nat) channel dev log
    (out : outcome Err Z) dev' log' :
  0 <= channel <= 3 ->
  readAdc fuel channel (dev, log) = Some (out, (dev', log')) ->
  exists k : nat,
    (k <= fuel)%nat
    /\ ((log' = log ++ WriteWord addr DEVICE_REG_CONFIG (swap (config channel))
                    :: status_reads k
         /\ exists e, out = Raised e)
        \/ ((1 <= k)%nat
            /\ log' = log ++ WriteWord addr DEVICE_REG_CONFIG
                              (swap (config channel))
                         :: status_reads k
                         ++ [ReadWord addr DEVICE_REG_CONVERSION])).
Proof. exact (readAdc_log_cases fuel channel dev log out dev' log'). Qed.

(** X6: when a status read raises after [n] busy replies, the exception
    leaves [readAdc] with its cause; the log ends with that read, and
    the conversion register is not read. *)
Theorem readAdc_status_read_failure
    (fuel n : nat) channel dev log dev1 (replies : nat -> Z) (e : Err) :
  0 <= channel <= 3 ->
  write_word_data dev addr DEVICE_REG_CONFIG (swap (config channel))
  = (dev1, None) ->
  (forall k, (k < n)%nat -> status_reply dev1 k = inl (replies k)) ->
  (forall k, (k < n)%nat -> Z.testbit (swap (replies k)) 15 = false) ->
  status_reply dev1 n = inr e ->
  (n < fuel)%nat ->
  readAdc fuel channel (dev, log)
  = Some (Raised e,
          (status_dev dev1 (S n),
           log ++ WriteWord addr DEVICE_REG_CONFIG (swap (config channel))
               :: status_reads (S n))).
Proof.
  intros Hch Hwrite Hok Hbusy Hraise Hfuel.
  rewrite (readAdc_phases _ _ _ _ _ Hch Hwrite).
  rewrite (wait_conversion_raises_at n _ _ replies e fuel
             Hok Hbusy Hraise Hfuel).
  rewrite <- app_assoc. reflexivity.
Qed.

End DriverTraffic.

(** ** Facts about the printed field *)

Lemma length_append (s1 s2 : string) :
  String.length (s1 ++ s2)
  = (String.length s1 + String.length s2)%nat.
Proof.
  induction s1 as [| c s1 IH]; cbn [append String.length].
  - reflexivity.
  - rewrite IH. reflexivity.
Qed.

Lemma zeros_length (n : nat) : String.length (zeros n) = n.
Proof.
  induction n as [| n IH]; cbn [zeros String.length]; congruence.
Qed.

(** [str] writes the sign and then the digits that ["%05d"] pads. *)
Lemma str_sign_digits (val : Z) :
  str val
  = ((if (val <? 0)%Z then "-" else EmptyString)
     ++ NilZero.string_of_uint (N.to_uint (Z.abs_N val)))%string.
Proof. destruct val; reflexivity. Qed.

Lemma all_from_spec (n : nat) (p : Z -> bool) :
  forall v : Z,
    all_from v n p = true ->
    forall x : Z, v <= x < v + Z.of_nat n -> p x = true.
Proof.
  induction n as [| n IH]; intros v Hall x Hx.
  - lia.
  - cbn [all_from] in Hall. apply Bool.andb_true_iff in Hall.
    destruct Hall as [Hfirst Hrest].
    destruct (Z.eq_dec x v) as [-> | Hne].
    + exact Hfirst.
    + apply (IH (v + 1)); [exact Hrest | lia].
Qed.

(** Up to 99999 a number has at most five digits, up to 9999 at most
    four: checked on every such number. *)
Lemma digits_at_most_5 (v : Z) :
  0 <= v <= 99999 ->
  (String.length (NilZero.string_of_uint (N.to_uint (Z.abs_N v))) <= 5)%nat.
Proof.
  intros Hv. apply Nat.leb_le.
  apply (all_from_spec (Z.to_nat 100000)
           (fun v => (String.length
                        (NilZero.string_of_uint (N.to_uint (Z.abs_N v)))
                      <=? 5)%nat) 0).
  - vm_compute. reflexivity.
  - rewrite Z2Nat.id; lia.
Qed.

Lemma digits_at_most_4 (v : Z) :
  0 <= v <= 9999 ->
  (String.length (NilZero.string_of_uint (N.to_uint (Z.abs_N v))) <= 4)%nat.
Proof.
  intros Hv. apply Nat.leb_le.
  apply (all_from_spec (Z.to_nat 10000)
           (fun v => (String.length
                        (NilZero.string_of_uint (N.to_uint (Z.abs_N v)))
                      <=? 4)%nat) 0).
  - vm_compute. reflexivity.
  - rewrite Z2Nat.id; lia.
Qed.

Lemma fmt_05d_length (val : Z) :
  String.length (fmt_05d val) = Nat.max 5 (String.length (str val)).
Proof.
  unfold fmt_05d. rewrite str_sign_digits.
  rewrite !length_append, zeros_length. lia.
Qed.

(** X7: ["%05d"] never cuts a number short: the field is as wide as
    [str] of the value when that is more than five columns, and five
    columns wide otherwise. *)
Theorem fmt_05d_width (val : Z) :
  String.length (fmt_05d val) = Nat.max 5 (String.length (str val))
  /\ (5 <= String.length (fmt_05d val))%nat.
Proof.
  rewrite fmt_05d_length. split; [reflexivity | lia].
Qed.

Lemma fmt_05d_five (val : Z) :
  -9999 <= val <= 99999 -> String.length (fmt_05d val) = 5%nat.
Proof.
  intros Hv. rewrite fmt_05d_length, str_sign_digits, length_append.
  destruct (Z.ltb_spec val 0) as [Hneg | Hpos].
  - pose proof (digits_at_most_4 (- val)) as H4.
    rewrite Zabs2N.inj_opp in H4.
    cbn [String.length]. specialize (H4 ltac:(lia)). lia.
  - pose proof (digits_at_most_5 val ltac:(lia)) as H5.
    cbn [String.length]. lia.
Qed.

(** X8: from -9999 to 99999, which covers every value that [readAdc]
    can return and its -1 as well, the field is exactly five columns
    wide. *)
Theorem fmt_05d_five_columns (val : Z) :
  -9999 <= val <= 99999 -> String.length (fmt_05d val) = 5%nat.
Proof. exact (fmt_05d_five val). Qed.

Lemma fmt_05d_five_columns_witness :
  String.length (fmt_05d 65535) = 5%nat.
Proof. apply (fmt_05d_five_columns 65535). lia. Defined.

Lemma uint_of_string_zeros (k : nat) (s : string) :
  NilEmpty.uint_of_string (zeros k ++ s)
  = option_map (Nat.iter k Decimal.D0) (NilEmpty.uint_of_string s).
Proof.
  induction k as [| k IH]; cbn [zeros append].
  - destruct (NilEmpty.uint_of_string s); reflexivity.
  - cbn [NilEmpty.uint_of_string]. rewrite IH.
    destruct (NilEmpty.uint_of_string s); reflexivity.
Qed.

Lemma of_uint_zeros (k : nat) (d : Decimal.uint) :
  Pos.of_uint (Nat.iter k Decimal.D0 d) = Pos.of_uint d.
Proof.
  induction k as [| k IH]; [reflexivity |].
  cbn [Nat.iter nat_rect]. cbn [Pos.of_uint]. exact IH.
Qed.

Lemma to_uint_nonnil (n : N) : N.to_uint n <> Decimal.Nil.
Proof.
  destruct n as [| p]; [discriminate |].
  apply DecimalPos.Unsigned.to_uint_nonnil.
Qed.

(** The zeros and the digits of a field, read as a decimal number. *)
Lemma digits_parse (n : N) (k : nat) :
  NilZero.uint_of_string (zeros k ++ NilZero.string_of_uint (N.to_uint n))
  = Some (Nat.iter k Decimal.D0 (N.to_uint n)).
Proof.
  pose proof (to_uint_nonnil n) as Hnonnil.
  assert (Hdigits : NilZero.string_of_uint (N.to_uint n)
                    = NilEmpty.string_of_uint (N.to_uint n)).
  { destruct (N.to_uint n); [contradiction | reflexivity ..]. }
  rewrite Hdigits.
  assert (Hparse : NilEmpty.uint_of_string
                     (zeros k ++ NilEmpty.string_of_uint (N.to_uint n))
                   = Some (Nat.iter k Decimal.D0 (N.to_uint n))).
  { rewrite uint_of_string_zeros, NilEmpty.usu. reflexivity. }
  destruct (zeros k ++ NilEmpty.string_of_uint (N.to_uint n))%string
    as [| c s] eqn:Hfull.
  - cbn [NilEmpty.uint_of_string] in Hparse.
    destruct k as [| k]; cbn [Nat.iter nat_rect] in Hparse.
    + inversion Hparse. congruence.
    + discriminate.
  - exact Hparse.
Qed.

Lemma uint_of_string_not_minus (s : string) :
  NilZero.uint_of_string (String "-" s) = None.
Proof.
  cbn [NilZero.uint_of_string NilEmpty.uint_of_string].
  destruct (NilEmpty.uint_of_string s); reflexivity.
Qed.

Lemma fmt_05d_parse (val : Z) :
  option_map Z.of_int (NilZero.int_of_string (fmt_05d val)) = Some val.
Proof.
  unfold fmt_05d.
  destruct (Z.ltb_spec val 0) as [Hneg | Hpos].
  - cbn [append].
    change (NilZero.int_of_string (String "-" ?s))
      with (option_map Decimal.Neg (NilZero.uint_of_string s)).
    rewrite digits_parse. cbn [option_map Z.of_int]. unfold Z.of_uint.
    rewrite of_uint_zeros.
    change (Pos.of_uint (N.to_uint (Z.abs_N val)))
      with (N.of_uint (N.to_uint (Z.abs_N val))).
    rewrite DecimalN.Unsigned.of_to, N2Z.inj_abs_N. f_equal. lia.
  - cbn [append].
    pose proof (digits_parse (Z.abs_N val)
                  (5 - String.length EmptyString
                   - String.length
                       (NilZero.string_of_uint (N.to_uint (Z.abs_N val)))))
      as Hparse.
    destruct (zeros _ ++ NilZero.string_of_uint (N.to_uint (Z.abs_N val)))%string
      as [| c s]; [discriminate |].
    destruct (Ascii.eqb_spec c "-") as [-> | Hc].
    + rewrite uint_of_string_not_minus in Hparse. discriminate.
    + unfold NilZero.int_of_string.
      destruct (Ascii.eqb_spec c "-") as [Heq | _]; [contradiction |].
      rewrite Hparse. cbn [option_map Z.of_int]. unfold Z.of_uint.
      rewrite of_uint_zeros.
      change (Pos.of_uint (N.to_uint (Z.abs_N val)))
        with (N.of_uint (N.to_uint (Z.abs_N val))).
      rewrite DecimalN.Unsigned.of_to, N2Z.inj_abs_N. f_equal. lia.
Qed.

(** X9: the field that ["%05d"] prints reads back, as a decimal number
    with its sign and leading zeros, to the value printed; so two values
    never print the same field. *)
Theorem fmt_05d_reads_back (val : Z) :
  option_map Z.of_int (NilZero.int_of_string (fmt_05d val)) = Some val
  /\ forall val' : Z, fmt_05d val = fmt_05d val' -> val = val'.
Proof.
  split; [apply fmt_05d_parse |].
  intros val' Hsame.
  pose proof (fmt_05d_parse val) as H1.
  pose proof (fmt_05d_parse val') as H2.
  rewrite Hsame in H1. congruence.
Qed.

(** ** Facts about one turn of the program's loop *)

Section DemoFacts.

Context {Dev Err : Type} {bus : SMBus Dev Err}.

Lemma sample_channels_cons (fuel : nat) (i : Z) (rest : list Z)
    (s : string) (w : World) :
  sample_channels fuel (i :: rest) s w
  = match readAdc fuel i w with
    | None => None
    | Some (Returned val, w1) =>
        sample_channels fuel rest (s ++ field i val)%string w1
    | Some (Raised e, w1) => Some (Raised e, w1)
    end.
Proof. reflexivity. Qed.

Lemma sample_channels_cons_returned (fuel : nat) (i : Z) (rest : list Z)
    (s line : string) (w w' : World) :
  sample_channels fuel (i :: rest) s w = Some (Returned line, w') ->
  exists (val : Z) (w1 : World),
    readAdc fuel i w = Some (Returned val, w1)
    /\ sample_channels fuel rest (s ++ field i val)%string w1
       = Some (Returned line, w').
Proof.
  rewrite sample_channels_cons. intros Hrun.
  destruct (readAdc fuel i w) as [[[val | e] w1] |]; try discriminate.
  exists val, w1. split; [reflexivity | exact Hrun].
Qed.

Lemma readAdc_returned_range (fuel : nat) (channel r : Z) (w w' : World) :
  0 <= channel <= 3 ->
  readAdc fuel channel w = Some (Returned r, w') ->
  0 <= r <= 65535.
Proof.
  intros Hch Hrun. destruct w as [dev log], w' as [dev' log'].
  destruct (readAdc_returned_inv _ _ _ _ _ _ _ Hch Hrun)
    as [dev2 [log2 [wire [_ [_ ->]]]]].
  apply swap_range.
Qed.

Lemma field_length (i val : Z) :
  0 <= i <= 3 -> 0 <= val <= 65535 -> String.length (field i val) = 10%nat.
Proof.
  intros Hi Hval. unfold field.
  rewrite !length_append, fmt_05d_five by lia.
  each_channel Hi; reflexivity.
Qed.

Lemma line_length (f0 f1 f2 f3 : string) :
  String.length f0 = 10%nat -> String.length f1 = 10%nat ->
  String.length f2 = 10%nat -> String.length f3 = 10%nat ->
  String.length ((((line_start ++ f0) ++ f1) ++ f2) ++ f3) = 69%nat.
Proof.
  intros H0 H1 H2 H3. rewrite !length_append, H0, H1, H2, H3. reflexivity.
Qed.

Lemma written_app (l1 l2 : list BusCall) :
  written (l1 ++ l2) = written l1 ++ written l2.
Proof. apply flat_map_app. Qed.

Lemma written_status_reads (k : nat) : written (status_reads k) = [].
Proof. induction k as [| k IH]; [reflexivity | exact IH]. Qed.

(** One call on a valid channel adds to the log, and the one word it
    writes is the configuration word of the channel, swapped. *)
Lemma readAdc_written (fuel : nat) (channel : Z) (dev : Dev)
    (log : list BusCall) (out : outcome Err Z) (dev' : Dev)
    (log' : list BusCall) :
  0 <= channel <= 3 ->
  readAdc fuel channel (dev, log) = Some (out, (dev', log')) ->
  exists t : list BusCall,
    log' = log ++ t /\ written t = [swap (config channel)].
Proof.
  intros Hch Hrun.
  destruct (readAdc_log_cases _ _ _ _ _ _ _ Hch Hrun)
    as [k [_ [[Hlog _] | [_ Hlog]]]]; eexists; (split; [exact Hlog |]).
  - cbn [written flat_map app]. fold (written (status_reads k)).
    rewrite written_status_reads. reflexivity.
  - cbn [written flat_map app].
    fold (written (status_reads k ++ [ReadWord addr DEVICE_REG_CONVERSION])).
    rewrite written_app, written_status_reads. reflexivity.
Qed.

Lemma sample_channels_written (fuel : nat) (channels : list Z) :
  Forall (fun i => 0 <= i <= 3) channels ->
  forall (s : string) (dev : Dev) (log : list BusCall)
         (out : outcome Err string) (dev' : Dev) (log' : list BusCall),
    sample_channels fuel channels s (dev, log) = Some (out, (dev', log')) ->
    exists (t : list BusCall) (j : nat),
      log' = log ++ t
      /\ written t = firstn j (map (fun i => swap (config i)) channels)
      /\ (j <= List.length channels)%nat
      /\ (forall line, out = Returned line -> j = List.length channels)
      /\ (forall e, out = Raised e -> (1 <= j)%nat).
Proof.
  induction 1 as [| i rest Hi Hrest IH];
    intros s dev log out dev' log' Hrun.
  - inversion Hrun; subst. exists [], O.
    rewrite app_nil_r. repeat split; try reflexivity.
    intros e He. discriminate.
  - rewrite sample_channels_cons in Hrun.
    destruct (readAdc fuel i (dev, log)) as [[[val | e] [dev1 log1]] |]
      eqn:Hcall; [| | discriminate].
    + destruct (readAdc_written _ _ _ _ _ _ _ Hi Hcall) as [t1 [Hlog1 Hw1]].
      destruct (IH _ _ _ _ _ _ Hrun) as [t2 [j [Hlog2 [Hw2 [Hj [Hret Hexn]]]]]].
      exists (t1 ++ t2), (S j). subst log1.
      split; [rewrite app_assoc; exact Hlog2 |].
      split; [rewrite written_app, Hw1, Hw2; reflexivity |].
      cbn [List.length]. split; [lia |].
      split.
      * intros line Hout. rewrite (Hret line Hout). reflexivity.
      * intros e He. lia.
    + inversion Hrun; subst.
      destruct (readAdc_written _ _ _ _ _ _ _ Hi Hcall) as [t1 [Hlog1 Hw1]].
      exists t1, 1%nat.
      split; [exact Hlog1 |]. split; [exact Hw1 |].
      cbn [List.length]. split; [lia |].
      split; [intros line Hout; discriminate | intros; lia].
Qed.

Lemma sample_channels_raised (fuel : nat) (channels : list Z) :
  forall (s : string) (w w' : World) (e : Err),
    sample_channels fuel channels s w = Some (Raised e, w') ->
    exists (pre : list Z) (i : Z) (post : list Z) (s' : string) (wi : World),
      channels = pre ++ i :: post
      /\ sample_channels fuel pre s w = Some (Returned s', wi)
      /\ readAdc fuel i wi = Some (Raised e, w').
Proof.
  induction channels as [| i rest IH]; intros s w w' e Hrun.
  - discriminate.
  - rewrite sample_channels_cons in Hrun.
    destruct (readAdc fuel i w) as [[[val | e1] w1] |] eqn:Hcall;
      [| | discriminate].
    + destruct (IH _ _ _ _ Hrun) as [pre [j [post [s' [wi [Hsplit [Hpre Hj]]]]]]].
      exists (i :: pre), j, post, s', wi.
      split; [rewrite Hsplit; reflexivity |].
      split; [| exact Hj].
      rewrite sample_channels_cons, Hcall. exact Hpre.
    + inversion Hrun; subst.
      exists [], i, rest, s, w.
      split; [reflexivity |]. split; [reflexivity | exact Hcall].
Qed.

(** X10: a turn of the loop that gets to its [print] has made the four
    calls [readAdc(0)] to [readAdc(3)] in that order, each from the
    world the one before left; every value is between 0 and 65535, so
    never the -1 of an invalid channel; the line is the opening text
    followed by the four fields, and it is always 69 characters long. *)
Theorem sample_line_returned (fuel : nat) (w w' : World) (line : string) :
  sample_line fuel w = Some (Returned line, w') ->
  exists (r0 r1 r2 r3 : Z) (w1 w2 w3 : World),
    readAdc fuel 0 w = Some (Returned r0, w1)
    /\ readAdc fuel 1 w1 = Some (Returned r1, w2)
    /\ readAdc fuel 2 w2 = Some (Returned r2, w3)
    /\ readAdc fuel 3 w3 = Some (Returned r3, w')
    /\ Forall (fun r => 0 <= r <= 65535) [r0; r1; r2; r3]
    /\ line = ((((line_start ++ field 0 r0) ++ field 1 r1)
                ++ field 2 r2) ++ field 3 r3)%string
    /\ String.length line = 69%nat.
Proof.
  unfold sample_line. intros Hrun.
  destruct (sample_channels_cons_returned _ _ _ _ _ _ _ Hrun)
    as [r0 [w1 [H0 Hrun1]]].
  destruct (sample_channels_cons_returned _ _ _ _ _ _ _ Hrun1)
    as [r1 [w2 [H1 Hrun2]]].
  destruct (sample_channels_cons_returned _ _ _ _ _ _ _ Hrun2)
    as [r2 [w3 [H2 Hrun3]]].
  destruct (sample_channels_cons_returned _ _ _ _ _ _ _ Hrun3)
    as [r3 [w4 [H3 Hrun4]]].
  assert (Hend : ((((line_start ++ field 0 r0) ++ field 1 r1)
                   ++ field 2 r2) ++ field 3 r3)%string = line
                 /\ w4 = w').
  { cbn [sample_channels] in Hrun4. unfold ret in Hrun4.
    split; congruence. }
  destruct Hend as [<- <-].
  pose proof (readAdc_returned_range fuel 0 _ _ _ ltac:(lia) H0) as R0.
  pose proof (readAdc_returned_range fuel 1 _ _ _ ltac:(lia) H1) as R1.
  pose proof (readAdc_returned_range fuel 2 _ _ _ ltac:(lia) H2) as R2.
  pose proof (readAdc_returned_range fuel 3 _ _ _ ltac:(lia) H3) as R3.
  exists r0, r1, r2, r3, w1, w2, w3.
  repeat (split; [assumption |]).
  split; [repeat constructor; lia |].
  split; [reflexivity |].
  apply line_length; apply field_length; lia.
Qed.

(** X11: whatever way a turn of the loop ends, the words it has written
    on the bus are the configuration words of channels 0, 1, 2, 3 in
    wire order, or the first few of them: all four if the line is
    printed, at least the first if an exception ended the turn. *)
Theorem sample_line_writes (fuel : nat) (dev : Dev) (log : list BusCall)
    (out : outcome Err string) (dev' : Dev) (log' : list BusCall) :
  sample_line fuel (dev, log) = Some (out, (dev', log')) ->
  exists (t : list BusCall) (j : nat),
    log' = log ++ t
    /\ written t = firstn j [0x83C3; 0x83D3; 0x83E3; 0x83F3]
    /\ (j <= 4)%nat
    /\ (forall line, out = Returned line -> j = 4%nat)
    /\ (forall e, out = Raised e -> (1 <= j)%nat).
Proof.
  intros Hrun.
  apply (sample_channels_written fuel [0; 1; 2; 3]) in Hrun.
  - exact Hrun.
  - repeat constructor; lia.
Qed.

(** X12: a turn of the loop that ends with an exception ends where the
    first failing [readAdc] left off: the channels before it returned,
    the exception is the one of that call, and the world is the one it
    left, so no later channel is sampled and nothing is printed. *)
Theorem sample_line_raised (fuel : nat) (w w' : World) (e : Err) :
  sample_line fuel w = Some (Raised e, w') ->
  exists (pre : list Z) (i : Z) (post : list Z) (s : string) (wi : World),
    [0; 1; 2; 3] = pre ++ i :: post
    /\ sample_channels fuel pre line_start w = Some (Returned s, wi)
    /\ readAdc fuel i wi = Some (Raised e, w').
Proof.
  intros Hrun. exact (sample_channels_raised fuel _ _ _ _ _ Hrun).
Qed.

End DemoFacts.

(** ** The further facts on the concrete buses *)

Example fmt_05d_samples :
  map fmt_05d [0; 7; 65535; -1; 123456; -12345]
  = [ "00000"; "00007"; "65535"; "-0001"; "123456"; "-12345" ]%string.
Proof. reflexivity. Qed.

Example sample_line_idle_device :
  sample_line (bus := script_bus (busy_for 0) 0x1234) 1 (O, [])
  = Some (Returned
            "(Ctrl-C to exit) ADC Result: 0: 13330  1: 13330  2: 13330  3: 13330  "%string,
          (4%nat,
           [ WriteWord 0x48 1 0x83C3; ReadWord 0x48 1; ReadWord 0x48 0;
             WriteWord 0x48 1 0x83D3; ReadWord 0x48 1; ReadWord 0x48 0;
             WriteWord 0x48 1 0x83E3; ReadWord 0x48 1; ReadWord 0x48 0;
             WriteWord 0x48 1 0x83F3; ReadWord 0x48 1; ReadWord 0x48 0 ])).
Proof. reflexivity. Qed.

Lemma readAdc_traffic_witness :
  exists k : nat,
    (k <= 4)%nat
    /\ (([ WriteWord 0x48 1 0x83E3; ReadWord 0x48 1; ReadWord 0x48 1;
           ReadWord 0x48 1; ReadWord 0x48 0 ]
         = [] ++ WriteWord addr DEVICE_REG_CONFIG (swap (config 2))
              :: status_reads k
         /\ exists e : Z, Returned (Err := Z) 13330 = Raised e)
        \/ ((1 <= k)%nat
            /\ [ WriteWord 0x48 1 0x83E3; ReadWord 0x48 1; ReadWord 0x48 1;
                 ReadWord 0x48 1; ReadWord 0x48 0 ]
               = [] ++ WriteWord addr DEVICE_REG_CONFIG (swap (config 2))
                    :: status_reads k
                    ++ [ReadWord addr DEVICE_REG_CONVERSION])).
Proof.
  apply (readAdc_traffic (bus := script_bus (busy_for 2) 0x1234)
           4 2 O [] (Returned 13330) 3%nat).
  - lia.
  - reflexivity.
Defined.

Lemma readAdc_status_read_failure_witness :
  readAdc (bus := dropping_bus 0x8363 2) 5 1 (O, [])
  = Some (Raised 121,
          (3%nat, [ WriteWord 0x48 1 0x83D3; ReadWord 0x48 1;
                    ReadWord 0x48 1; ReadWord 0x48 1 ])).
Proof.
  apply (readAdc_status_read_failure (bus := dropping_bus 0x8363 2)
           5 2 1 O [] O (fun _ => 0x8363) 121).
  - lia.
  - reflexivity.
  - intros [| [| k]] Hk; [reflexivity | reflexivity | lia].
  - intros k _. reflexivity.
  - reflexivity.
  - lia.
Defined.

Lemma sample_line_returned_witness :
  exists (r0 r1 r2 r3 : Z) (w1 w2 w3 : World),
    readAdc (bus := dropping_bus 0x83E3 8) 1 0 (O, [])
    = Some (Returned r0, w1)
    /\ readAdc (bus := dropping_bus 0x83E3 8) 1 1 w1 = Some (Returned r1, w2)
    /\ readAdc (bus := dropping_bus 0x83E3 8) 1 2 w2 = Some (Returned r2, w3)
    /\ readAdc (bus := dropping_bus 0x83E3 8) 1 3 w3
       = Some (Returned r3,
               (8%nat,
                [ WriteWord 0x48 1 0x83C3; ReadWord 0x48 1; ReadWord 0x48 0;
                  WriteWord 0x48 1 0x83D3; ReadWord 0x48 1; ReadWord 0x48 0;
                  WriteWord 0x48 1 0x83E3; ReadWord 0x48 1; ReadWord 0x48 0;
                  WriteWord 0x48 1 0x83F3; ReadWord 0x48 1; ReadWord 0x48 0 ]))
    /\ Forall (fun r => 0 <= r <= 65535) [r0; r1; r2; r3]
    /\ "(Ctrl-C to exit) ADC Result: 0: 58243  1: 58243  2: 58243  3: 58243  "%string
       = ((((line_start ++ field 0 r0) ++ field 1 r1)
           ++ field 2 r2) ++ field 3 r3)%string
    /\ String.length
         "(Ctrl-C to exit) ADC Result: 0: 58243  1: 58243  2: 58243  3: 58243  "
       = 69%nat.
Proof.
  apply (sample_line_returned (bus := dropping_bus 0x83E3 8) 1 (O, [])).
  reflexivity.
Defined.

Lemma sample_line_writes_witness :
  exists (t : list BusCall) (j : nat),
    [ WriteWord 0x48 1 0x83C3; ReadWord 0x48 1; ReadWord 0x48 0;
      WriteWord 0x48 1 0x83D3; ReadWord 0x48 1; ReadWord 0x48 0 ]
    = [] ++ t
    /\ written t = firstn j [0x83C3; 0x83D3; 0x83E3; 0x83F3]
    /\ (j <= 4)%nat
    /\ (forall line, Raised (A := string) 121 = Returned line -> j = 4%nat)
    /\ (forall e : Z, Raised (A := string) 121 = Raised e -> (1 <= j)%nat).
Proof.
  apply (sample_line_writes (bus := dropping_bus 0x83E3 3) 1 O []
           (Raised 121) 4%nat).
  reflexivity.
Defined.

Lemma sample_line_raised_witness :
  exists (pre : list Z) (i : Z) (post : list Z) (s : string) (wi : World),
    [0; 1; 2; 3] = pre ++ i :: post
    /\ sample_channels (bus := dropping_bus 0x83E3 3) 1 pre line_start (O, [])
       = Some (Returned s, wi)
    /\ readAdc (bus := dropping_bus 0x83E3 3) 1 i wi
       = Some (Raised 121,
               (4%nat,
                [ WriteWord 0x48 1 0x83C3; ReadWord 0x48 1; ReadWord 0x48 0;
                  WriteWord 0x48 1 0x83D3; ReadWord 0x48 1; ReadWord 0x48 0 ])).
Proof.
  apply (sample_line_raised (bus := dropping_bus 0x83E3 3) 1 (O, [])).
  reflexivity.
Defined.
